(** * QR attendance backend: a shallow embedding of [app.py]

    The Flask application has three request handlers over two services:
    [AttendanceService] (one SQLite table) and [QRCodeService] (one
    directory of PNG files).  This file embeds the handlers, the services,
    the validation predicate and the library functions they lean on
    ([str.strip], [posixpath.normpath], [posixpath.join], werkzeug's
    [safe_join], the [sqlite3] connection context manager) and proves the
    properties of the design document about them.

    Python values are modelled as follows.
    - [str]: a list of Unicode code points ([pystr]); [len] is [length].
    - exceptions: an error monad over the world state; only subclasses of
      [Exception] are modelled.
    - the SQLite file, the QR directory, the log sink and the calls made on
      the [sqlite3] API: fields of the [world] record.
    - what the program cannot decide (the clock, I/O failures, encoder
      failures): the [env] record, an input of every operation.  Failures
      of the encoder and of the file write are all of this kind, also the
      ones an input forces (a payload beyond the capacity of the code, a
      name the file system refuses); the refusal of the database binding
      to store a surrogate code point is part of the [sqlite3] layer. *)

From Stdlib Require Import ZArith NArith List String Ascii Lia Bool.
From Stdlib Require Import Floats.SpecFloat.
From stdpp Require Import base option list gmap sorting.

Open Scope Z_scope.

(** ** Python strings *)

Module PyStr.

(** A [str] is a sequence of code points. *)
Abbreviation pystr := (list N).

(** String literals of the source, read code point by code point. *)
Definition py (s : string) : pystr :=
  List.map N_of_ascii (list_ascii_of_string s).

(** [s.startswith(p)] *)
Fixpoint startswith (p s : pystr) : bool :=
  match p, s with
  | [], _ => true
  | _ :: _, [] => false
  | a :: p', b :: s' => (a =? b)%N && startswith p' s'
  end.

(** [s.endswith(p)] *)
Definition endswith (p s : pystr) : bool :=
  startswith (rev p) (rev s).

(** [s == t] *)
Definition str_eqb (s t : pystr) : bool := bool_decide (s = t).

(** [s.split(c)] for a one-character separator: never returns the empty
    list, and [''.split(c)] is [['']]. *)
Fixpoint split (c : N) (s : pystr) : list pystr :=
  match s with
  | [] => [[]]
  | x :: r =>
      if (x =? c)%N then [] :: split c r
      else match split c r with
           | [] => [[x]]
           | h :: t => (x :: h) :: t
           end
  end.

(** [c.join(comps)] for a one-character separator. *)
Fixpoint join (c : N) (comps : list pystr) : pystr :=
  match comps with
  | [] => []
  | [h] => h
  | h :: t => h ++ c :: join c t
  end.

(** [Py_UNICODE_ISSPACE]: the code points [str.strip()] removes. *)
Definition isspace (c : N) : bool :=
  ((9 <=? c) && (c <=? 13) || (28 <=? c) && (c <=? 32)
   || (c =? 133) || (c =? 160) || (c =? 5760)
   || (8192 <=? c) && (c <=? 8202)
   || (c =? 8232) || (c =? 8233) || (c =? 8239) || (c =? 8287)
   || (c =? 12288))%N.

(** [s.lstrip()] *)
Fixpoint lstrip (s : pystr) : pystr :=
  match s with
  | [] => []
  | c :: r => if isspace c then lstrip r else s
  end.

(** [s.rstrip()] *)
Definition rstrip (s : pystr) : pystr := rev (lstrip (rev s)).

(** [s.strip()] *)
Definition strip (s : pystr) : pystr := rstrip (lstrip s).

(** [len(s)] *)
Definition len (s : pystr) : Z := Z.of_nat (length s).

End PyStr.
Export PyStr.

(** ** [posixpath] and werkzeug's [safe_join] (POSIX host) *)

Module PosixPath.

Definition sep : N := 47.
Definition dot : pystr := [46%N].
Definition dotdot : pystr := [46%N; 46%N].

(** [posixpath.isabs] *)
Definition isabs (p : pystr) : bool := startswith [sep] p.

(** The loop of [normpath] over the components, [new_comps] kept in
    reverse (its last element first). *)
Fixpoint normpath_loop (initial_slashes : bool) (new_comps : list pystr)
    (comps : list pystr) : list pystr :=
  match comps with
  | [] => new_comps
  | comp :: rest =>
      if str_eqb comp [] || str_eqb comp dot then
        normpath_loop initial_slashes new_comps rest
      else if negb (str_eqb comp dotdot)
              || (negb initial_slashes && bool_decide (new_comps = []))
              || match new_comps with
                 | last :: _ => str_eqb last dotdot
                 | [] => false
                 end
      then normpath_loop initial_slashes (comp :: new_comps) rest
      else match new_comps with
           | _ :: popped => normpath_loop initial_slashes popped rest
           | [] => normpath_loop initial_slashes new_comps rest
           end
  end.

(** [posixpath.normpath] *)
Definition normpath (path : pystr) : pystr :=
  if str_eqb path [] then dot
  else
    let initial_slashes : nat :=
      if startswith [sep] path then
        if startswith [sep; sep] path && negb (startswith [sep; sep; sep] path)
        then 2%nat else 1%nat
      else 0%nat in
    let comps := split sep path in
    let new_comps :=
      rev (normpath_loop (negb (Nat.eqb initial_slashes 0)) [] comps) in
    let path := join sep new_comps in
    let path := repeat sep initial_slashes ++ path in
    if str_eqb path [] then dot else path.

(** [posixpath.join(a, b)] for two arguments. *)
Definition join2 (a b : pystr) : pystr :=
  if startswith [sep] b then b
  else if str_eqb a [] || endswith [sep] a then a ++ b
  else a ++ sep :: b.

(** [werkzeug.security.safe_join(directory, filename)] with one untrusted
    component; [os.sep] is ["/"] and [os.path.altsep] is [None], so the
    list of alternative separators is empty.  An empty component is
    skipped and the directory returned. *)
Definition safe_join (directory filename : pystr) : option pystr :=
  let directory := if str_eqb directory [] then dot else directory in
  if str_eqb filename [] then Some directory
  else
    let filename := normpath filename in
    if isabs filename
       || str_eqb filename dotdot
       || startswith (dotdot ++ [sep]) filename
    then None
    else Some (join2 directory filename).

End PosixPath.
Export PosixPath.

(** ** JSON values, as [request.get_json()] returns them *)

#[warnings="-register-all"]
Inductive json : Type :=
| JNull
| JBool (b : bool)
| JInt (n : Z)
| JFloat (f : spec_float)
| JString (s : pystr)
| JArray (items : list json)
| JObject (members : list (pystr * json)).

(** Python truth value of a parsed JSON value ([if not data], [x and y]). *)
Definition truthy (v : json) : bool :=
  match v with
  | JNull => false
  | JBool b => b
  | JInt n => negb (n =? 0)
  | JFloat (S754_zero _) => false
  | JFloat _ => true
  | JString [] => false
  | JString (_ :: _) => true
  | JArray [] => false
  | JArray (_ :: _) => true
  | JObject [] => false
  | JObject (_ :: _) => true
  end.

(** [d.get(key)] on a dict given by its items; [None] is [JNull]. *)
Fixpoint dict_get (key : pystr) (members : list (pystr * json)) : json :=
  match members with
  | [] => JNull
  | (k, v) :: rest => if str_eqb k key then v else dict_get key rest
  end.

(** ** Exceptions *)

Inductive exn_class : Type :=
| Sqlite3Error      (* sqlite3.Error and its subclasses *)
| DatabaseError     (* the application's DatabaseError *)
| QRCodeError       (* the application's QRCodeError *)
| AttributeError
| UnicodeEncodeError
| OtherException.   (* any other subclass of Exception *)

#[global] Instance exn_class_eq_dec : EqDecision exn_class.
Proof. solve_decision. Defined.

(** An exception: its class and [str(e)]. *)
Record exn : Type := Exn { exn_cls : exn_class; exn_str : pystr }.

#[global] Instance exn_eq_dec : EqDecision exn.
Proof. solve_decision. Defined.

Inductive outcome (A : Type) : Type :=
| Returned (a : A)
| Raised (e : exn).
Arguments Returned {A} a.
Arguments Raised {A} e.

(** ** The stored state *)

(** One row of the [attendance] table.  [CURRENT_TIMESTAMP] values are
    kept as seconds since the epoch; between the years 0000 and 9999 that
    orders as their text form ['YYYY-MM-DD HH:MM:SS']. *)
Record row : Type := Row {
  row_id : Z;
  row_user_id : pystr;
  row_timestamp : Z;
  row_created_at : Z
}.

#[global] Instance row_eq_dec : EqDecision row.
Proof. solve_decision. Defined.

(** The database file: the table (absent before [CREATE TABLE]), the
    AUTOINCREMENT counter of [sqlite_sequence], and the index. *)
Record db_state : Type := Db {
  attendance : option (list row);
  sqlite_sequence : Z;
  idx_user_id_timestamp : bool
}.

Inductive statement : Type :=
| CreateTable
| CreateIndex
| InsertAttendance (user_id : pystr)
| SelectAttendance.

(** Calls made on the [sqlite3] API. *)
Inductive sql_call : Type :=
| SqlConnect
| SqlExecute (s : statement)
| SqlCommit
| SqlRollback
| SqlClose.

#[global] Instance statement_eq_dec : EqDecision statement.
Proof. solve_decision. Defined.
#[global] Instance sql_call_eq_dec : EqDecision sql_call.
Proof. solve_decision. Defined.

Inductive ec_level : Type := ERROR_CORRECT_L | ERROR_CORRECT_M | ERROR_CORRECT_Q | ERROR_CORRECT_H.

(** The image [qr.make_image] returns, by what determines it. *)
Record qr_image : Type := QRImage {
  qr_data : pystr;
  qr_error_correction : ec_level;
  qr_box_size : Z;
  qr_border : Z;
  qr_fill_color : pystr;
  qr_back_color : pystr
}.

(** A file of the QR directory: a complete PNG, or what an interrupted
    [save] left behind. *)
Inductive file : Type :=
| PngFile (img : qr_image)
| PartialFile.

Record world : Type := World {
  w_db : db_state;              (* committed contents of the database file *)
  w_txn : option db_state;      (* the connection in use: what its open
                                   transaction has made of the database and
                                   not committed yet, if one is open *)
  w_sql : list sql_call;        (* sqlite3 calls made so far, oldest first *)
  w_fs : gmap pystr file;       (* files written by [qr_image.save], by path *)
  w_log : list pystr            (* records handed to [logger.error] *)
}.

(** ** The environment of one operation *)

Record env : Type := Env {
  now : Z;                                (* CURRENT_TIMESTAMP *)
  connect_fault : option exn;             (* sqlite3.connect raises *)
  execute_fault : nat -> option exn;      (* the k-th execute of the call raises *)
  commit_fault : option exn;              (* the commit of the with block raises *)
  encode_fault : option exn;              (* the qrcode library raises *)
  save_fault : option (exn * bool)        (* save raises; true: after creating the file *)
}.

(** An environment in which nothing fails. *)
Definition calm (t : Z) : env :=
  {| now := t; connect_fault := None; execute_fault := fun _ => None;
     commit_fault := None; encode_fault := None; save_fault := None |}.

(** ** The monad of the program: environment, state and exceptions *)

Definition M (A : Type) : Type := env -> world -> outcome A * world.

Definition ret {A} (a : A) : M A := fun _ w => (Returned a, w).

Definition bind {A B} (m : M A) (k : A -> M B) : M B :=
  fun e w =>
    match m e w with
    | (Returned a, w') => k a e w'
    | (Raised x, w') => (Raised x, w')
    end.

Definition raise {A} (x : exn) : M A := fun _ w => (Raised x, w).

(** [try: body except ...: handler]; the handler returns [None] when no
    except clause matches, and the exception propagates. *)
Definition try_except {A} (body : M A) (handler : exn -> option (M A)) : M A :=
  fun e w =>
    match body e w with
    | (Returned a, w') => (Returned a, w')
    | (Raised x, w') =>
        match handler x with
        | Some h => h e w'
        | None => (Raised x, w')
        end
    end.

(** A value or exception computed without touching the state. *)
Definition lift {A} (o : outcome A) : M A := fun _ w => (o, w).

Declare Scope py_scope.
Delimit Scope py_scope with py.
Notation "x <- m ;; k" := (bind m (fun x => k))
  (at level 100, m at next level, right associativity) : py_scope.
Notation "m ;;; k" := (bind m (fun _ => k))
  (at level 100, right associativity) : py_scope.
Open Scope py_scope.

(** [logger.error(msg)] *)
Definition logger_error (msg : pystr) : M unit :=
  fun _ w => (Returned tt,
              {| w_db := w_db w; w_txn := w_txn w; w_sql := w_sql w;
                 w_fs := w_fs w; w_log := w_log w ++ [msg] |}).

(** ** The [sqlite3] layer *)

Module Sqlite.

Definition sqlite_max_rowid : Z := 9223372036854775807.

(** The largest rowid present in the table (0 when it is empty). *)
Definition largest_rowid (rows : list row) : Z :=
  foldr (fun r m => Z.max (row_id r) m) 0 rows.

(** [ORDER BY timestamp DESC]: [newer_first a b] when [a] may precede [b]. *)
Definition newer_first (a b : row) : Prop := row_timestamp b <= row_timestamp a.

#[global] Instance newer_first_dec : RelDecision newer_first.
Proof. intros a b. unfold newer_first. apply _. Defined.

Definition no_such_table : exn :=
  Exn Sqlite3Error (py "no such table: attendance").
Definition no_such_table_main : exn :=
  Exn Sqlite3Error (py "no such table: main.attendance").
Definition database_full : exn :=
  Exn Sqlite3Error (py "database or disk is full").

(** Code points U+D800 to U+DFFF: a [str] that holds one cannot be encoded
    as UTF-8, which binding it as a parameter requires. *)
Definition is_surrogate (c : N) : bool := ((55296 <=? c) && (c <=? 57343))%N.

Definition utf8_encodable (s : pystr) : bool :=
  forallb (fun c => negb (is_surrogate c)) s.

(** Decimal digits of a number. *)
Fixpoint decimal_digits (fuel : nat) (n : N) (acc : pystr) : pystr :=
  match fuel with
  | O => acc
  | S fuel' =>
      let acc' := (48 + n mod 10)%N :: acc in
      if (n <? 10)%N then acc' else decimal_digits fuel' (n / 10)%N acc'
  end.

Definition decimal (n : N) : pystr :=
  decimal_digits (S (N.to_nat (N.log2 n))) n [].

(** One lower-case hexadecimal digit. *)
Definition hex_digit (d : N) : N := (if d <? 10 then 48 + d else 87 + d)%N.

(** [c] as four hexadecimal digits. *)
Definition hex4 (c : N) : pystr :=
  [hex_digit (c / 4096 mod 16); hex_digit (c / 256 mod 16);
   hex_digit (c / 16 mod 16); hex_digit (c mod 16)]%N.

(** The length of the run of surrogates at the head of [s]. *)
Fixpoint surrogate_run (s : pystr) : N :=
  match s with
  | c :: rest => if is_surrogate c then (1 + surrogate_run rest)%N else 0%N
  | [] => 0%N
  end.

(** [str(e)] of the [UnicodeEncodeError] the UTF-8 encoder raises on [s],
    scanning from position [i]: it names the first run of surrogates. *)
Fixpoint encode_error_text (s : pystr) (i : N) : option pystr :=
  match s with
  | [] => None
  | c :: rest =>
      if is_surrogate c then
        Some (if (surrogate_run rest =? 0)%N
              then py "'utf-8' codec can't encode character '\u" ++ hex4 c
                   ++ py "' in position " ++ decimal i
                   ++ py ": surrogates not allowed"
              else py "'utf-8' codec can't encode characters in position "
                   ++ decimal i ++ py "-" ++ decimal (i + surrogate_run rest)
                   ++ py ": surrogates not allowed")
      else encode_error_text rest (i + 1)%N
  end.

(** Binding [s] as a parameter: the exception raised, if any. *)
Definition bind_text (s : pystr) : option exn :=
  match encode_error_text s 0 with
  | Some text => Some (Exn UnicodeEncodeError text)
  | None => None
  end.

(** What a statement does to the database at time [t], as the connection
    sees it.  An INSERT under AUTOINCREMENT takes one more than the largest
    rowid the table ever held, and fails once that is the largest 64-bit
    integer; its parameter is bound before the row is written. *)
Definition run_statement (s : statement) (t : Z) (db : db_state)
    : outcome (list row) * db_state :=
  match s with
  | CreateTable =>
      match attendance db with
      | Some _ => (Returned [], db)
      | None => (Returned [],
                 Db (Some []) (sqlite_sequence db) (idx_user_id_timestamp db))
      end
  | CreateIndex =>
      match attendance db with
      | Some rows => (Returned [], Db (Some rows) (sqlite_sequence db) true)
      | None => (Raised no_such_table_main, db)
      end
  | InsertAttendance user_id =>
      match attendance db with
      | Some rows =>
          match bind_text user_id with
          | Some x => (Raised x, db)
          | None =>
              let m := Z.max (sqlite_sequence db) (largest_rowid rows) in
              if sqlite_max_rowid <=? m then (Raised database_full, db)
              else (Returned [],
                    Db (Some (rows ++ [Row (m + 1) user_id t t])) (m + 1)
                       (idx_user_id_timestamp db))
          end
      | None => (Raised no_such_table, db)
      end
  | SelectAttendance =>
      match attendance db with
      | Some rows => (Returned (merge_sort newer_first rows), db)
      | None => (Raised no_such_table, db)
      end
  end.

(** Only the INSERT opens a transaction implicitly; the other statements
    run in autocommit mode when none is open. *)
Definition opens_transaction (s : statement) : bool :=
  match s with InsertAttendance _ => true | _ => false end.

Definition record_call (c : sql_call) (w : world) : world :=
  World (w_db w) (w_txn w) (w_sql w ++ [c]) (w_fs w) (w_log w).

(** The database as the connection in use sees it. *)
Definition view (w : world) : db_state :=
  match w_txn w with
  | Some pending => pending
  | None => w_db w
  end.

(** [sqlite3.connect(db_path)]: the new connection has no transaction open
    and sees the committed contents; what an earlier connection left
    uncommitted is gone. *)
Definition connect : M unit :=
  fun e w =>
    match connect_fault e with
    | Some x => (Raised x, w)
    | None =>
        (Returned tt, World (w_db w) None (w_sql w ++ [SqlConnect]) (w_fs w) (w_log w))
    end.

(** [conn.execute(stmt)], the [k]-th execute of the current call.  Inside
    a transaction the change stays with the connection until the commit. *)
Definition execute (s : statement) (k : nat) : M (list row) :=
  fun e w =>
    let w := record_call (SqlExecute s) w in
    match execute_fault e k with
    | Some x => (Raised x, w)
    | None =>
        match run_statement s (now e) (view w) with
        | (Returned rows, db') =>
            match w_txn w with
            | Some _ =>
                (Returned rows, World (w_db w) (Some db') (w_sql w) (w_fs w) (w_log w))
            | None =>
                if opens_transaction s
                then (Returned rows,
                      World (w_db w) (Some db') (w_sql w) (w_fs w) (w_log w))
                else (Returned rows, World db' None (w_sql w) (w_fs w) (w_log w))
            end
        | (Raised x, _) => (Raised x, w)
        end
    end.

(** [conn.rollback()]: the uncommitted changes are dropped. *)
Definition rollback : M unit :=
  fun _ w =>
    (Returned tt,
     World (w_db w) None (w_sql w ++ [SqlRollback]) (w_fs w) (w_log w)).

(** [conn.commit()]: the changes of the transaction reach the file. *)
Definition commit : M unit :=
  fun e w =>
    let w := record_call SqlCommit w in
    match commit_fault e with
    | Some x => (Raised x, w)
    | None => (Returned tt, World (view w) None (w_sql w) (w_fs w) (w_log w))
    end.

(** [with conn: body].  [Connection.__exit__] commits when the body
    returned and rolls back when it raised (also when the commit itself
    raised); it does not close the connection. *)
Definition with_connection {A} (body : M A) : M A :=
  fun e w =>
    match body e w with
    | (Returned a, w1) =>
        match commit e w1 with
        | (Returned _, w2) => (Returned a, w2)
        | (Raised x, w2) => (Raised x, snd (rollback e w2))
        end
    | (Raised x, w1) => (Raised x, snd (rollback e w1))
    end.

End Sqlite.

(** [except sqlite3.Error] *)
Definition is_sqlite3_error (x : exn) : bool :=
  bool_decide (exn_cls x = Sqlite3Error).

(** ** [class Database] *)

Module Database.

(** [Database.get_connection] *)
Definition get_connection : M unit :=
  try_except Sqlite.connect
    (fun x =>
       if is_sqlite3_error x then
         Some (logger_error (py "Database connection error: " ++ exn_str x) ;;;
               raise (Exn DatabaseError (py "Failed to connect to database")))
       else None).

(** [Database.init_db] *)
Definition init_db : M unit :=
  try_except
    (get_connection ;;;
     Sqlite.with_connection
       (_ <- Sqlite.execute CreateTable 0 ;;
        _ <- Sqlite.execute CreateIndex 1 ;;
        ret tt))
    (fun x =>
       if is_sqlite3_error x then
         Some (logger_error (py "Database initialization error: " ++ exn_str x) ;;;
               raise (Exn DatabaseError (py "Failed to initialize database")))
       else None).

End Database.

(** ** [class AttendanceService] *)

Module AttendanceService.
Import Database.

(** [AttendanceService.mark_attendance] *)
Definition mark_attendance (user_id : pystr) : M unit :=
  try_except
    (get_connection ;;;
     Sqlite.with_connection
       (_ <- Sqlite.execute (InsertAttendance user_id) 0 ;; ret tt))
    (fun x =>
       if is_sqlite3_error x then
         Some (logger_error (py "Error marking attendance: " ++ exn_str x) ;;;
               raise (Exn DatabaseError (py "Failed to mark attendance")))
       else None).

(** [AttendanceService.get_attendance_records] *)
Definition get_attendance_records : M (list row) :=
  try_except
    (get_connection ;;;
     Sqlite.with_connection (Sqlite.execute SelectAttendance 0))
    (fun x =>
       if is_sqlite3_error x then
         Some (logger_error (py "Error retrieving attendance records: " ++ exn_str x) ;;;
               raise (Exn DatabaseError (py "Failed to retrieve attendance records")))
       else None).

End AttendanceService.

(** ** [class QRCodeService] *)

Module QRCodeService.

(** The service object; the field holds [str(self.qr_codes_dir)]. *)
Record t : Type := { qr_codes_dir : pystr }.

(** [qrcode.QRCode(...)], [add_data], [make(fit=True)], [make_image(...)] *)
Definition make_image (user_id : pystr) : M qr_image :=
  fun e w =>
    match encode_fault e with
    | Some x => (Raised x, w)
    | None =>
        (Returned (QRImage user_id ERROR_CORRECT_L 10 4 (py "black") (py "white")), w)
    end.

(** [qr_image.save(qr_path)] *)
Definition save (img : qr_image) (qr_path : pystr) : M unit :=
  fun e w =>
    match save_fault e with
    | Some (x, false) => (Raised x, w)
    | Some (x, true) =>
        (Raised x,
         World (w_db w) (w_txn w) (w_sql w) (<[qr_path := PartialFile]> (w_fs w)) (w_log w))
    | None =>
        (Returned tt,
         World (w_db w) (w_txn w) (w_sql w) (<[qr_path := PngFile img]> (w_fs w)) (w_log w))
    end.

(** [QRCodeService.generate_qr_code] *)
Definition generate_qr_code (self : t) (user_id : pystr) : M pystr :=
  try_except
    (qr_image <- make_image user_id ;;
     match safe_join (qr_codes_dir self) (user_id ++ py ".png") with
     | Some qr_path =>
         if truthy (JString qr_path) then
           save qr_image qr_path ;;; ret qr_path
         else raise (Exn QRCodeError (py "Invalid QR code path"))
     | None => raise (Exn QRCodeError (py "Invalid QR code path"))
     end)
    (fun x =>
       Some (logger_error (py "Error generating QR code: " ++ exn_str x) ;;;
             raise (Exn QRCodeError (py "Failed to generate QR code")))).

End QRCodeService.

(** ** Request handlers *)

(** [type(v).__name__] of a parsed JSON value. *)
Definition type_name (v : json) : pystr :=
  match v with
  | JNull => py "NoneType"
  | JBool _ => py "bool"
  | JInt _ => py "int"
  | JFloat _ => py "float"
  | JString _ => py "str"
  | JArray _ => py "list"
  | JObject _ => py "dict"
  end.

(** The [AttributeError] of [v.name] when [v] has no such attribute. *)
Definition no_attribute (v : json) (name : pystr) : exn :=
  Exn AttributeError
      (py "'" ++ type_name v ++ py "' object has no attribute '" ++ name ++ py "'").

(** [validate_user_id], on whatever [data.get("user_id")] returned:
    [bool(user_id and user_id.strip() and len(user_id) <= 50)]. *)
Definition validate_user_id (user_id : json) : outcome bool :=
  if negb (truthy user_id) then Returned false
  else match user_id with
       | JString s =>
           if negb (truthy (JString (strip s))) then Returned false
           else Returned (len s <=? 50)
       | _ => Raised (no_attribute user_id (py "strip"))
       end.

(** [data.get(key)]: only a dict has the method. *)
Definition data_get (data : json) (key : pystr) : outcome json :=
  match data with
  | JObject members => Returned (dict_get key members)
  | _ => Raised (no_attribute data (py "get"))
  end.

Record response : Type := Response { status : Z; body : json }.

(** [jsonify(d)] of a dict of strings, with the default status 200. *)
Definition jsonify (members : list (string * pystr)) : json :=
  JObject (List.map (fun kv => (py (fst kv), JString (snd kv))) members).

(** Two and four decimal digits, zero padded. *)
Definition pad2 (n : Z) : pystr :=
  [Z.to_N (48 + n / 10 mod 10); Z.to_N (48 + n mod 10)].
Definition pad4 (n : Z) : pystr := pad2 (n / 100) ++ pad2 (n mod 100).

(** The text ['YYYY-MM-DD HH:MM:SS'] (UTC) SQLite stores for the time [t],
    seconds since the epoch, the civil date taken from the day number. *)
Definition timestamp_text (t : Z) : pystr :=
  let days := t / 86400 in
  let secs := t mod 86400 in
  let z := days + 719468 in
  let era := z / 146097 in
  let doe := z - era * 146097 in
  let yoe := (doe - doe / 1460 + doe / 36524 - doe / 146096) / 365 in
  let doy := doe - (365 * yoe + yoe / 4 - yoe / 100) in
  let mp := (5 * doy + 2) / 153 in
  let d := doy - (153 * mp + 2) / 5 + 1 in
  let m := if mp <? 10 then mp + 3 else mp - 9 in
  let y := yoe + era * 400 + (if m <=? 2 then 1 else 0) in
  pad4 y ++ py "-" ++ pad2 m ++ py "-" ++ pad2 d ++ py " "
  ++ pad2 (secs / 3600) ++ py ":" ++ pad2 (secs / 60 mod 60) ++ py ":"
  ++ pad2 (secs mod 60).

(** [dict(row)] as [jsonify] renders it: the two DATETIME columns are text. *)
Definition row_to_json (r : row) : json :=
  JObject [(py "id", JInt (row_id r)); (py "user_id", JString (row_user_id r));
           (py "timestamp", JString (timestamp_text (row_timestamp r)));
           (py "created_at", JString (timestamp_text (row_created_at r)))].

(** The catch-all clause shared by the three handlers. *)
Definition internal_server_error (x : exn) : M response :=
  logger_error (py "Unexpected error: " ++ exn_str x) ;;;
  ret (Response 500 (jsonify [("error"%string, py "Internal server error")])).

(** [POST /api/generate_qr]; [request] is what [request.get_json()] did. *)
Definition generate_qr (qr_code_service : QRCodeService.t)
    (request : outcome json) : M response :=
  try_except
    (data <- lift request ;;
     if negb (truthy data) then
       ret (Response 400 (jsonify [("error"%string, py "No data provided")]))
     else
       user_id <- lift (data_get data (py "user_id")) ;;
       valid <- lift (validate_user_id user_id) ;;
       if negb valid then
         ret (Response 400 (jsonify [("error"%string, py "Invalid user ID")]))
       else
         match user_id with
         | JString user_id =>
             qr_path <- QRCodeService.generate_qr_code qr_code_service user_id ;;
             ret (Response 200
                    (jsonify [("message"%string, py "QR Code generated successfully");
                              ("qr_path"%string, qr_path)]))
         | _ => raise (Exn OtherException (py "not a str"))   (* never taken *)
         end)
    (fun x =>
       if bool_decide (exn_cls x = QRCodeError) then
         Some (logger_error (py "QR code generation failed: " ++ exn_str x) ;;;
               ret (Response 500 (jsonify [("error"%string, exn_str x)])))
       else Some (internal_server_error x)).

(** [POST /api/mark_attendance] *)
Definition mark_attendance (request : outcome json) : M response :=
  try_except
    (data <- lift request ;;
     if negb (truthy data) then
       ret (Response 400 (jsonify [("error"%string, py "No data provided")]))
     else
       user_id <- lift (data_get data (py "user_id")) ;;
       valid <- lift (validate_user_id user_id) ;;
       if negb valid then
         ret (Response 400 (jsonify [("error"%string, py "Invalid user ID")]))
       else
         match user_id with
         | JString user_id =>
             AttendanceService.mark_attendance user_id ;;;
             ret (Response 200
                    (jsonify [("message"%string, py "Attendance marked successfully")]))
         | _ => raise (Exn OtherException (py "not a str"))   (* never taken *)
         end)
    (fun x =>
       if bool_decide (exn_cls x = DatabaseError) then
         Some (logger_error (py "Database error: " ++ exn_str x) ;;;
               ret (Response 500 (jsonify [("error"%string, exn_str x)])))
       else Some (internal_server_error x)).

(** [GET /api/get_attendance] *)
Definition get_attendance : M response :=
  try_except
    (records <- AttendanceService.get_attendance_records ;;
     ret (Response 200 (JArray (List.map row_to_json records))))
    (fun x =>
       if bool_decide (exn_cls x = DatabaseError) then
         Some (logger_error (py "Database error: " ++ exn_str x) ;;;
               ret (Response 500 (jsonify [("error"%string, exn_str x)])))
       else Some (internal_server_error x)).

(** ** Worlds and services used in the examples *)

(** Before start-up: no table, no file, nothing logged. *)
Definition empty_world : world := World (Db None 0 false) None [] ∅ [].

(** The world the handlers first see: [database.init_db()] has run. *)
Definition started_world : world := snd (Database.init_db (calm 0) empty_world).

(** [QRCodeService(Config.QR_CODES_DIR)] with the default directory. *)
Definition default_service : QRCodeService.t :=
  {| QRCodeService.qr_codes_dir := py "qrcodes" |}.

(** The body [{"user_id": v}]. *)
Definition user_id_body (v : json) : outcome json :=
  Returned (JObject [(py "user_id", v)]).

(** ** [class Config] and the rate-limit handler *)

Module Config.

(** [os.getenv(name, default)], given the value of the variable ([None]
    when it is not set). *)
Definition getenv (value : option pystr) (default : pystr) : pystr :=
  match value with
  | Some v => v
  | None => default
  end.

(** [DATABASE_PATH = os.getenv('DATABASE_PATH', 'attendance.db')] *)
Definition DATABASE_PATH (value : option pystr) : pystr :=
  getenv value (py "attendance.db").

(** [QR_CODES_DIR = os.getenv('QR_CODES_DIR', 'qrcodes')] *)
Definition QR_CODES_DIR (value : option pystr) : pystr :=
  getenv value (py "qrcodes").

(** [ALLOWED_ORIGINS = os.getenv('ALLOWED_ORIGINS', '*').split(',')] *)
Definition ALLOWED_ORIGINS (value : option pystr) : list pystr :=
  split 44 (getenv value (py "*")).

End Config.

(** [@app.errorhandler(429)] *)
Definition ratelimit_handler : response :=
  Response 429 (jsonify [("error"%string, py "Rate limit exceeded")]).

(** * Vocabulary of the properties *)

(** ** Input validation *)

(** A candidate identifier that is null or a string, as JSON. *)
Definition candidate_json (c : option pystr) : json :=
  match c with
  | None => JNull
  | Some s => JString s
  end.

(** The shared rule in the design document's words: non-null, trimmed form
    non-empty, untrimmed length at most 50. *)
Definition valid_identifier (c : option pystr) : Prop :=
  match c with
  | None => False
  | Some s => strip s <> [] /\ len s <= 50
  end.

(** The invalid identifiers the design document lists: null, an empty or
    whitespace-only string, a string longer than 50. *)
Definition invalid_user_id (v : json) : Prop :=
  v = JNull \/
  exists s, v = JString s /\ (forallb isspace s = true \/ 50 < len s).

Definition invalid_response : response :=
  Response 400 (jsonify [("error"%string, py "Invalid user ID")]).

Definition no_data_response : response :=
  Response 400 (jsonify [("error"%string, py "No data provided")]).

(** ** Stored records and operations *)

(** The rows of the table, none while the table does not exist. *)
Definition rows_of (w : world) : list row :=
  default [] (attendance (w_db w)).

(** [n] calls of [mark_attendance] in a row, one environment each; stops at
    the first call that raises. *)
Fixpoint mark_each (user_id : pystr) (envs : list env) (w : world)
    : outcome unit * world :=
  match envs with
  | [] => (Returned tt, w)
  | e :: rest =>
      match AttendanceService.mark_attendance user_id e w with
      | (Returned _, w1) => mark_each user_id rest w1
      | (Raised x, w1) => (Raised x, w1)
      end
  end.

(** Descending timestamps for every pair of positions. *)
Definition descending (records : list row) : Prop :=
  forall i j a b, (i < j)%nat ->
    records !! i = Some a -> records !! j = Some b ->
    row_timestamp b <= row_timestamp a.

(** The table exists and AUTOINCREMENT has a rowid left. *)
Definition accepts_insert (w : world) : Prop :=
  exists rows, attendance (w_db w) = Some rows
    /\ Z.max (sqlite_sequence (w_db w)) (Sqlite.largest_rowid rows)
       < Sqlite.sqlite_max_rowid.

(** The service calls that obtain a database connection. *)
Inductive db_call : Type :=
| CallInitDb
| CallMarkAttendance (user_id : pystr)
| CallGetAttendanceRecords.

(** Every operation of the system: start-up, the service calls and the
    three handlers. *)
Inductive operation : Type :=
| DbCall (c : db_call)
| GenerateQRCode (self : QRCodeService.t) (user_id : pystr)
| PostGenerateQr (self : QRCodeService.t) (request : outcome json)
| PostMarkAttendance (request : outcome json)
| GetAttendance.

Definition returned {A} (o : outcome A) : bool :=
  match o with Returned _ => true | Raised _ => false end.

Definition observe {A} (r : outcome A * world) : bool * world :=
  (returned (fst r), snd r).

(** Runs a database call: whether it returned, and the world after it. *)
Definition run_db_call (c : db_call) (e : env) (w : world) : bool * world :=
  match c with
  | CallInitDb => observe (Database.init_db e w)
  | CallMarkAttendance user_id => observe (AttendanceService.mark_attendance user_id e w)
  | CallGetAttendanceRecords => observe (AttendanceService.get_attendance_records e w)
  end.

Definition run (op : operation) (e : env) (w : world) : world :=
  match op with
  | DbCall c => snd (run_db_call c e w)
  | GenerateQRCode self user_id => snd (QRCodeService.generate_qr_code self user_id e w)
  | PostGenerateQr self request => snd (generate_qr self request e w)
  | PostMarkAttendance request => snd (mark_attendance request e w)
  | GetAttendance => snd (get_attendance e w)
  end.

(** A history: operations with the environment each one met. *)
Fixpoint run_all (history : list (operation * env)) (w : world) : world :=
  match history with
  | [] => w
  | (op, e) :: rest => run_all rest (run op e w)
  end.

(** Connections opened and not closed by a sequence of [sqlite3] calls. *)
Definition open_connections (calls : list sql_call) : nat :=
  (count_occ sql_call_eq_dec calls SqlConnect
   - count_occ sql_call_eq_dec calls SqlClose)%nat.

(** What a database call does on the [sqlite3] API between entry and exit:
    either it obtained no connection and raised, or it connected, ran its
    statements and ended the transaction, by a commit when it returned and
    by a rollback when it raised, without closing. *)
Definition scoped_calls (ok : bool) (calls : list sql_call) : Prop :=
  (calls = [] /\ ok = false)
  \/ exists statements,
       calls = SqlConnect :: List.map SqlExecute statements
                 ++ (if ok then [SqlCommit] else [SqlRollback])
       \/ (ok = false /\
           calls = SqlConnect :: List.map SqlExecute statements
                     ++ [SqlCommit; SqlRollback]).

(** ** Paths *)

(** A component that names an entry: not empty, not ".", not "..". *)
Definition plain (c : pystr) : bool :=
  negb (str_eqb c [] || str_eqb c dot || str_eqb c dotdot).

(** Walking the components of a relative path from a directory: the depth
    reached below the directory, or [None] once a ".." climbs above it. *)
Fixpoint descend (depth : nat) (comps : list pystr) : option nat :=
  match comps with
  | [] => Some depth
  | c :: rest =>
      if str_eqb c [] || str_eqb c dot then descend depth rest
      else if str_eqb c dotdot then
        match depth with
        | O => None
        | S d => descend d rest
        end
      else descend (S depth) rest
  end.

(** A file name escapes the directory it is joined to when it is absolute
    or climbs above the directory at some point of the walk. *)
Definition escapes (name : pystr) : bool :=
  isabs name
  || match descend 0 (split sep name) with
     | Some _ => false
     | None => true
     end.

(** A user_id carries a traversal sequence when ".." is one of its
    components. *)
Definition has_traversal_sequence (user_id : pystr) : bool :=
  bool_decide (dotdot ∈ split sep user_id).

(** The directory as the prefix of every path below it. *)
Definition dir_prefix (directory : pystr) : pystr :=
  let d := if str_eqb directory [] then dot else directory in
  if endswith [sep] d then d else d ++ [sep].

Fixpoint strip_prefix (p s : pystr) : option pystr :=
  match p, s with
  | [], _ => Some s
  | _ :: _, [] => None
  | a :: p', b :: s' => if (a =? b)%N then strip_prefix p' s' else None
  end.

(** A path is confined to a directory when it is the directory followed by
    components that all name entries: no ".." is left to climb with. *)
Definition confined (directory path : pystr) : bool :=
  match strip_prefix (dir_prefix directory) path with
  | Some rel => forallb plain (split sep rel)
  | None => false
  end.

(** The one exception [generate_qr_code] lets out. *)
Definition generation_failed : exn :=
  Exn QRCodeError (py "Failed to generate QR code").

(** The world after one more record was logged. *)
Definition logged (msg : pystr) (w : world) : world :=
  World (w_db w) (w_txn w) (w_sql w) (w_fs w) (w_log w ++ [msg]).

(** The world after one file was written. *)
Definition written (path : pystr) (f : file) (w : world) : world :=
  World (w_db w) (w_txn w) (w_sql w) (<[path := f]> (w_fs w)) (w_log w).

(** The image of a user_id with the parameters of the source. *)
Definition image_of (user_id : pystr) : qr_image :=
  QRImage user_id ERROR_CORRECT_L 10 4 (py "black") (py "white").

(** ** Vocabulary of the further properties *)

Definition connect_failed : exn :=
  Exn DatabaseError (py "Failed to connect to database").
Definition init_failed : exn :=
  Exn DatabaseError (py "Failed to initialize database").
Definition mark_failed : exn :=
  Exn DatabaseError (py "Failed to mark attendance").
Definition retrieve_failed : exn :=
  Exn DatabaseError (py "Failed to retrieve attendance records").

(** The exception a database call raises for its own failures. *)
Definition own_failure (c : db_call) : exn :=
  match c with
  | CallInitDb => init_failed
  | CallMarkAttendance _ => mark_failed
  | CallGetAttendanceRecords => retrieve_failed
  end.

Definition raised {A} (o : outcome A) : option exn :=
  match o with Returned _ => None | Raised x => Some x end.

(** The exception a database call lets out, if any. *)
Definition db_call_exn (c : db_call) (e : env) (w : world) : option exn :=
  match c with
  | CallInitDb => raised (fst (Database.init_db e w))
  | CallMarkAttendance user_id =>
      raised (fst (AttendanceService.mark_attendance user_id e w))
  | CallGetAttendanceRecords =>
      raised (fst (AttendanceService.get_attendance_records e w))
  end.

(** [x] is an exception the environment of a database call injects. *)
Definition db_fault (e : env) (x : exn) : Prop :=
  connect_fault e = Some x
  \/ (exists k, execute_fault e k = Some x)
  \/ commit_fault e = Some x.

(** [x] is an exception the library raised during the database call [c]:
    one the environment injects, or the [UnicodeEncodeError] of binding a
    [user_id] that holds a surrogate. *)
Definition library_raised (c : db_call) (e : env) (x : exn) : Prop :=
  db_fault e x
  \/ exists user_id,
       c = CallMarkAttendance user_id /\ Sqlite.bind_text user_id = Some x.

(** The environment injects library exceptions only, none of the
    application's own [DatabaseError]. *)
Definition library_db_faults (e : env) : Prop :=
  forall x, db_fault e x -> exn_cls x <> DatabaseError.

Definition error_response (code : Z) (message : pystr) : response :=
  Response code (jsonify [("error"%string, message)]).

Definition internal_error_response : response :=
  error_response 500 (py "Internal server error").

Definition marked_response : response :=
  Response 200 (jsonify [("message"%string, py "Attendance marked successfully")]).

Definition generated_response (qr_path : pystr) : response :=
  Response 200 (jsonify [("message"%string, py "QR Code generated successfully");
                         ("qr_path"%string, qr_path)]).

(** The table as the code keeps it: ids positive and strictly increasing
    in table order, both timestamps of a row equal. *)
Definition table_ok (rows : list row) : Prop :=
  StronglySorted Z.lt (List.map row_id rows)
  /\ Forall (fun r => 0 < row_id r /\ row_created_at r = row_timestamp r) rows.

(** A JSON value that is not a string. *)
Definition not_a_string (v : json) : Prop :=
  match v with JString _ => False | _ => True end.

(** A JSON value that is not an object. *)
Definition not_an_object (v : json) : Prop :=
  match v with JObject _ => False | _ => True end.

(** What one operation may do to the rows: nothing, or append the row
    AUTOINCREMENT and the clock of its environment determine. *)
Definition appends_at_most_one (e : env) (before after : world) : Prop :=
  rows_of after = rows_of before
  \/ exists user_id,
       rows_of after
       = rows_of before
         ++ [Row (Z.max (sqlite_sequence (w_db before))
                        (Sqlite.largest_rowid (rows_of before)) + 1)
                 user_id (now e) (now e)].

(** The operations that insert. *)
Definition is_mark (op : operation) : bool :=
  match op with
  | DbCall (CallMarkAttendance _) => true
  | PostMarkAttendance _ => true
  | _ => false
  end.

(** The except clauses of the attendance handlers, on an exception [x]
    caught in world [w]. *)
Definition answer_database_error (x : exn) (w : world) : outcome response * world :=
  if bool_decide (exn_cls x = DatabaseError)
  then (Returned (error_response 500 (exn_str x)),
        logged (py "Database error: " ++ exn_str x) w)
  else (Returned internal_error_response,
        logged (py "Unexpected error: " ++ exn_str x) w).

(** The except clauses of [generate_qr]. *)
Definition answer_qr_error (x : exn) (w : world) : outcome response * world :=
  if bool_decide (exn_cls x = QRCodeError)
  then (Returned (error_response 500 (exn_str x)),
        logged (py "QR code generation failed: " ++ exn_str x) w)
  else (Returned internal_error_response,
        logged (py "Unexpected error: " ++ exn_str x) w).

(** What a POST handler finds in its request before it calls a service. *)
Inductive parsed : Type :=
| NoData                       (* the body is falsy *)
| InvalidUserId                (* validation returned False *)
| UserId (user_id : pystr)     (* validation returned True *)
| Failed (x : exn).            (* get_json, .get or validation raised *)

Definition parse (request : outcome json) : parsed :=
  match request with
  | Raised x => Failed x
  | Returned data =>
      if truthy data then
        match data_get data (py "user_id") with
        | Raised x => Failed x
        | Returned v =>
            match validate_user_id v with
            | Raised x => Failed x
            | Returned false => InvalidUserId
            | Returned true =>
                match v with
                | JString s => UserId s
                | _ => Failed (Exn OtherException (py "not a str"))
                end
            end
        end
      else NoData
  end.

(** A handler run that answered, logged exactly when it answered 500, and
    used one of the three status codes of the application. *)
Definition logs_iff_500 (w : world) (run : outcome response * world) : Prop :=
  exists r entries,
    fst run = Returned r
    /\ w_log (snd run) = w_log w ++ entries
    /\ (status r = 500 <-> entries <> [])
    /\ (status r = 200 \/ status r = 400 \/ status r = 500).

(** A candidate [user_id] that is a string or falsy (null or missing,
    false, 0, 0.0, [] or {}): the candidates validation decides. *)
Definition string_or_falsy (v : json) : Prop :=
  (exists s, v = JString s) \/ truthy v = false.

(** The candidate is a valid identifier in the design document's words. *)
Definition valid_candidate (v : json) : Prop :=
  exists s, v = JString s /\ valid_identifier (Some s).

(** * Properties *)

(** ** The library functions on examples *)

Example normpath_traversal :
  normpath (py "a/../../evil.png") = py "../evil.png".
Proof. reflexivity. Qed.

Example safe_join_evil : safe_join (py "qrcodes") (py "../evil.png") = None.
Proof. reflexivity. Qed.

Example safe_join_alice :
  safe_join (py "qrcodes") (py "alice.png") = Some (py "qrcodes/alice.png").
Proof. reflexivity. Qed.

Example timestamp_text_examples :
  timestamp_text 0 = py "1970-01-01 00:00:00"
  /\ timestamp_text 951782400 = py "2000-02-29 00:00:00"
  /\ timestamp_text 1700000000 = py "2023-11-14 22:13:20"
  /\ timestamp_text 68169600 = py "1972-02-29 00:00:00"
  /\ timestamp_text 4102444800 = py "2100-01-01 00:00:00"
  /\ timestamp_text 253402300799 = py "9999-12-31 23:59:59".
Proof. repeat split; vm_compute; reflexivity. Qed.

Example encode_error_text_examples :
  Sqlite.encode_error_text [55296%N] 0
  = Some (py "'utf-8' codec can't encode character '\ud800' in position 0: surrogates not allowed")
  /\ Sqlite.encode_error_text (py "abcdefghijkl" ++ [56320; 55297; 122; 55296]%N) 0
     = Some (py "'utf-8' codec can't encode characters in position 12-13: surrogates not allowed")
  /\ Sqlite.encode_error_text (py "alice") 0 = None.
Proof. repeat split; vm_compute; reflexivity. Qed.



(** ** Facts about strings *)

Section StringFacts.

Lemma str_eqb_eq (s t : pystr) : str_eqb s t = true <-> s = t.
Proof. unfold str_eqb. apply bool_decide_eq_true. Qed.

Lemma str_eqb_neq (s t : pystr) : str_eqb s t = false <-> s <> t.
Proof. unfold str_eqb. apply bool_decide_eq_false. Qed.

Lemma lstrip_nil_iff (s : pystr) : lstrip s = [] <-> forallb isspace s = true.
Proof.
  induction s as [|c r IH]; simpl; [tauto|].
  destruct (isspace c); simpl; [exact IH|].
  split; discriminate.
Qed.

Lemma forallb_rev {A} (f : A -> bool) (l : list A) :
  forallb f (rev l) = forallb f l.
Proof.
  induction l as [|a l IH]; simpl; [reflexivity|].
  rewrite forallb_app, IH. simpl. rewrite andb_true_r. apply andb_comm.
Qed.

Lemma lstrip_blank_or_head (s : pystr) :
  lstrip s = [] \/ exists c r, lstrip s = c :: r /\ isspace c = false.
Proof.
  induction s as [|c r IH]; simpl; [by left|].
  destruct (isspace c) eqn:E; [exact IH|].
  right. by exists c, r.
Qed.

(** The trimmed form is empty exactly for the whitespace-only strings. *)
Lemma strip_nil_iff (s : pystr) : strip s = [] <-> forallb isspace s = true.
Proof.
  unfold strip, rstrip. rewrite <- lstrip_nil_iff.
  split.
  - intros H. apply (f_equal (@rev N)) in H. rewrite rev_involutive in H.
    simpl in H. apply lstrip_nil_iff in H. rewrite forallb_rev in H.
    destruct (lstrip_blank_or_head s) as [E|(c & r & E & Hc)]; [exact E|].
    rewrite E in H. simpl in H. by rewrite Hc in H.
  - intros ->. reflexivity.
Qed.

End StringFacts.

(** ** Input validation *)

Lemma validate_user_id_string (s : pystr) :
  validate_user_id (JString s)
  = Returned (negb (forallb isspace s) && (len s <=? 50)).
Proof.
  unfold validate_user_id.
  destruct s as [|c r]; [reflexivity|].
  cbn [truthy negb].
  destruct (strip (c :: r)) as [|c' r'] eqn:E.
  - apply strip_nil_iff in E. rewrite E. reflexivity.
  - assert (H : forallb isspace (c :: r) <> true).
    { intros H. apply strip_nil_iff in H. congruence. }
    apply not_true_is_false in H. rewrite H. reflexivity.
Qed.

Lemma validate_user_id_candidate (c : option pystr) :
  exists b, validate_user_id (candidate_json c) = Returned b
            /\ (b = true <-> valid_identifier c).
Proof.
  destruct c as [s|]; simpl.
  - rewrite validate_user_id_string. eexists; split; [reflexivity|].
    rewrite andb_true_iff, negb_true_iff, Z.leb_le.
    split; intros [H1 H2]; split; try assumption.
    + intros E. apply strip_nil_iff in E. congruence.
    + apply not_true_is_false. intros E. apply strip_nil_iff in E. congruence.
  - exists false. split; [reflexivity|]. split; [discriminate|tauto].
Qed.

Lemma validate_user_id_invalid (v : json) :
  invalid_user_id v -> validate_user_id v = Returned false.
Proof.
  intros [->|(s & -> & H)]; [reflexivity|].
  rewrite validate_user_id_string.
  destruct H as [H|H].
  - by rewrite H.
  - apply Z.leb_gt in H. rewrite H. by rewrite andb_false_r.
Qed.

(** Both POST handlers, on a JSON object whose [user_id] does not validate. *)
Lemma post_rejects_unvalidated svc members e w :
  validate_user_id (dict_get (py "user_id") members) = Returned false ->
  let r := if truthy (JObject members) then invalid_response
           else no_data_response in
  generate_qr svc (Returned (JObject members)) e w = (Returned r, w)
  /\ mark_attendance (Returned (JObject members)) e w = (Returned r, w).
Proof.
  intros Hv. unfold generate_qr, mark_attendance, try_except, bind, lift.
  destruct members as [|m ms]; [split; reflexivity|].
  cbn [truthy negb data_get]. rewrite Hv. split; reflexivity.
Qed.

(** C2 (a defect of the code).  The candidate [3] is not a valid
    identifier, so the claim asks for 400; yet the body [{"user_id": 3}] is
    answered with status 500 "Internal server error" by both POST handlers:
    [validate_user_id] raises [AttributeError] on the missing [strip]
    method and the catch-all clause answers.  The neighbouring candidate
    [0], not a string either, is answered 400 "Invalid user ID" as the
    claim says. *)
Theorem non_string_candidate_is_500 :
  validate_user_id (JInt 3)
    = Raised (Exn AttributeError (py "'int' object has no attribute 'strip'"))
  /\ generate_qr default_service (user_id_body (JInt 3)) (calm 0) started_world
     = (Returned (Response 500 (jsonify [("error"%string, py "Internal server error")])),
        logged (py "Unexpected error: 'int' object has no attribute 'strip'")
          started_world)
  /\ mark_attendance (user_id_body (JInt 3)) (calm 0) started_world
     = (Returned (Response 500 (jsonify [("error"%string, py "Internal server error")])),
        logged (py "Unexpected error: 'int' object has no attribute 'strip'")
          started_world)
  /\ ~ (exists r, fst (mark_attendance (user_id_body (JInt 3)) (calm 0) started_world)
                  = Returned r /\ status r = 400)
  /\ validate_user_id (JInt 0) = Returned false
  /\ generate_qr default_service (user_id_body (JInt 0)) (calm 0) started_world
     = (Returned invalid_response, started_world)
  /\ mark_attendance (user_id_body (JInt 0)) (calm 0) started_world
     = (Returned invalid_response, started_world).
Proof.
  repeat split; try reflexivity.
  intros (r & H & Hr). vm_compute in H. injection H as <-. discriminate Hr.
Qed.

(** C3.  For every invalid [user_id] (null, an empty or whitespace-only
    string, a string longer than 50), both POST handlers answer 400 and
    leave the world as it was: no row, no file, no log record, no call on
    the database. *)
Theorem invalid_user_id_no_write svc members e w :
  invalid_user_id (dict_get (py "user_id") members) ->
  (exists r, generate_qr svc (Returned (JObject members)) e w = (Returned r, w)
             /\ status r = 400)
  /\ (exists r, mark_attendance (Returned (JObject members)) e w = (Returned r, w)
                /\ status r = 400).
Proof.
  intros H. apply validate_user_id_invalid in H.
  destruct (post_rejects_unvalidated svc members e w H) as [H1 H2].
  split; eexists; (split; [eassumption|]); by destruct members.
Qed.

Lemma invalid_user_id_no_write_witness :
  (exists r, generate_qr default_service
               (user_id_body (JString (repeat 97%N 51))) (calm 0) started_world
             = (Returned r, started_world) /\ status r = 400)
  /\ (exists r, mark_attendance
                  (user_id_body (JString (repeat 97%N 51))) (calm 0) started_world
                = (Returned r, started_world) /\ status r = 400).
Proof.
  apply (invalid_user_id_no_write default_service
           [(py "user_id", JString (repeat 97%N 51))]).
  right. exists (repeat 97%N 51). split; [reflexivity|]. right. reflexivity.
Defined.

(** C9.  A body that parses to the empty object [{}] is answered by both
    POST handlers with 400 and [{"error": "No data provided"}], not with
    the message of the validation step, and the world is left as it was. *)
Theorem empty_object_no_data svc e w :
  generate_qr svc (Returned (JObject [])) e w = (Returned no_data_response, w)
  /\ mark_attendance (Returned (JObject [])) e w = (Returned no_data_response, w)
  /\ no_data_response = Response 400 (jsonify [("error"%string, py "No data provided")])
  /\ no_data_response <> invalid_response.
Proof. repeat split. discriminate. Qed.

(** ** The attendance table *)

Ltac unfold_program :=
  unfold generate_qr, mark_attendance, get_attendance, internal_server_error,
    AttendanceService.mark_attendance, AttendanceService.get_attendance_records,
    Database.init_db, Database.get_connection,
    QRCodeService.generate_qr_code, QRCodeService.save, QRCodeService.make_image,
    Sqlite.with_connection, Sqlite.execute, Sqlite.commit, Sqlite.rollback,
    Sqlite.connect, Sqlite.record_call, Sqlite.run_statement, Sqlite.view,
    logger_error, try_except, bind, lift, ret, raise in *.

Ltac case_split :=
  match goal with
  | |- context [match ?x with _ => _ end] =>
      lazymatch x with
      | context [match _ with _ => _ end] => fail
      | _ => destruct x eqn:?
      end
  end.

Ltac cases := repeat (case_split; simpl in *; try discriminate).

#[local] Instance newer_first_total : Total Sqlite.newer_first.
Proof. intros a b. unfold Sqlite.newer_first. lia. Qed.

#[local] Instance newer_first_trans : Transitive Sqlite.newer_first.
Proof. intros a b c. unfold Sqlite.newer_first. lia. Qed.

Lemma largest_rowid_bound (rows : list row) (r : row) :
  r ∈ rows -> row_id r <= Sqlite.largest_rowid rows.
Proof.
  induction 1 as [r rows|r r' rows _ IH]; simpl; lia.
Qed.

#[local] Arguments Sqlite.bind_text : simpl never.

Lemma encode_error_text_none s i :
  Sqlite.encode_error_text s i = None <-> Sqlite.utf8_encodable s = true.
Proof.
  revert i. induction s as [|c s IH]; intros i; simpl; [done|].
  destruct (Sqlite.is_surrogate c); simpl; [split; discriminate|apply IH].
Qed.

(** Binding succeeds exactly for the strings without surrogate. *)
Lemma bind_text_none s :
  Sqlite.bind_text s = None <-> Sqlite.utf8_encodable s = true.
Proof.
  unfold Sqlite.bind_text. rewrite <- (encode_error_text_none s 0).
  destruct (Sqlite.encode_error_text s 0); split; intros; done.
Qed.

(** A call of [mark_attendance] that returns has appended one row. *)
Lemma mark_attendance_returns user_id e w w' :
  AttendanceService.mark_attendance user_id e w = (Returned tt, w') ->
  exists rows,
    attendance (w_db w) = Some rows
    /\ attendance (w_db w')
       = Some (rows ++ [Row (Z.max (sqlite_sequence (w_db w))
                                   (Sqlite.largest_rowid rows) + 1)
                            user_id (now e) (now e)])
    /\ Z.max (sqlite_sequence (w_db w)) (Sqlite.largest_rowid rows)
       < Sqlite.sqlite_max_rowid.
Proof.
  unfold_program. simpl. cases; intros H; simplify_eq/=.
  eexists. repeat split. by apply Z.leb_gt.
Qed.

(** In a calm environment [mark_attendance] returns whenever the table
    accepts an insert and the string can be bound. *)
Lemma mark_attendance_calm user_id t w :
  Sqlite.utf8_encodable user_id = true ->
  accepts_insert w ->
  exists w', AttendanceService.mark_attendance user_id (calm t) w = (Returned tt, w').
Proof.
  intros Hutf (rows & Hrows & Hroom). apply bind_text_none in Hutf.
  unfold_program. simpl.
  rewrite Hrows, Hutf. apply Z.leb_gt in Hroom. rewrite Hroom. simpl. eauto.
Qed.

(** A call of [get_attendance_records] that returns has sorted the table. *)
Lemma get_attendance_records_returns e w w' records :
  AttendanceService.get_attendance_records e w = (Returned records, w') ->
  exists rows,
    attendance (w_db w) = Some rows
    /\ records = merge_sort Sqlite.newer_first rows
    /\ w_db w' = w_db w.
Proof.
  unfold_program. simpl. intros H.
  destruct (connect_fault e) eqn:?; simpl in *.
  { revert H. cases. }
  destruct (execute_fault e 0) eqn:?; simpl in *.
  { revert H. cases. }
  destruct (attendance (w_db w)) as [rows|] eqn:?; simpl in *;
    [|discriminate].
  destruct (commit_fault e) eqn:?; simpl in *.
  { revert H. cases. }
  injection H as <- <-. simpl. by exists rows.
Qed.


Lemma StronglySorted_descending (records : list row) :
  StronglySorted Sqlite.newer_first records -> descending records.
Proof.
  induction 1 as [|a l Hl IH Ha]; intros i j x y Hij Hi Hj.
  - by rewrite lookup_nil in Hi.
  - destruct j as [|j]; [lia|]. simpl in Hj.
    destruct i as [|i]; simpl in Hi.
    + injection Hi as <-. rewrite Forall_forall in Ha.
      apply Ha. by eapply list_elem_of_lookup_2.
    + eapply (IH i j); eauto. lia.
Qed.



(** C5.  [n] calls of [mark_attendance] with one [user_id] that all return
    add exactly [n] rows to the table, after the rows already there; each
    carries the given [user_id] and the time of its own insertion, their
    ids are pairwise distinct and larger than every id stored before.  One
    call ([n = 1]) adds exactly one row. *)
Theorem mark_each_adds_distinct_rows user_id envs w w' :
  mark_each user_id envs w = (Returned tt, w') ->
  exists new,
    rows_of w' = rows_of w ++ new
    /\ length new = length envs
    /\ Forall (fun r => row_user_id r = user_id) new
    /\ List.map row_timestamp new = List.map now envs
    /\ NoDup (List.map row_id new)
    /\ forall r old, r ∈ new -> old ∈ rows_of w -> row_id old < row_id r.
Proof.
  revert w. induction envs as [|e envs IH]; intros w H; simpl in H.
  - injection H as <-. exists []. rewrite app_nil_r.
    repeat split; try constructor. intros r old Hr. by apply elem_of_nil in Hr.
  - destruct (AttendanceService.mark_attendance user_id e w) as [[[]|x] w1] eqn:H1;
      [|discriminate].
    destruct (mark_attendance_returns _ _ _ _ H1) as (rows & Hrows & Hrows1 & _).
    destruct (IH _ H) as (new & Hnew & Hlen & Huid & Hts & Hdup & Hgt).
    unfold rows_of in *. rewrite Hrows. rewrite Hrows1 in Hnew, Hgt. simpl in *.
    set (r1 := Row _ user_id (now e) (now e)) in *.
    assert (Hold : forall old, old ∈ rows -> row_id old < row_id r1).
    { intros old Hin. apply largest_rowid_bound in Hin. simpl. lia. }
    exists (r1 :: new). rewrite Hnew, <- app_assoc. simpl.
    repeat split; auto.
    + by rewrite Hts.
    + constructor; [|exact Hdup].
      intros Hin. apply list_elem_of_In, in_map_iff in Hin as (r & Heq & Hr).
      apply list_elem_of_In in Hr.
      specialize (Hgt r r1 Hr). rewrite elem_of_app, list_elem_of_singleton in Hgt.
      specialize (Hgt (or_intror eq_refl)). subst r1. simpl in *. lia.
    + intros r old Hr Hin. apply elem_of_cons in Hr as [->|Hr]; [by apply Hold|].
      apply (Hgt r old Hr). apply elem_of_app. by left.
Qed.

Lemma mark_each_adds_distinct_rows_witness :
  exists new,
    rows_of (snd (mark_each (py "bob") [calm 5; calm 5; calm 6] started_world))
      = rows_of started_world ++ new
    /\ length new = 3%nat
    /\ Forall (fun r => row_user_id r = py "bob") new
    /\ List.map row_timestamp new = [5; 5; 6]
    /\ NoDup (List.map row_id new)
    /\ forall r old, r ∈ new -> old ∈ rows_of started_world -> row_id old < row_id r.
Proof.
  apply (mark_each_adds_distinct_rows (py "bob") [calm 5; calm 5; calm 6]
           started_world).
  vm_compute. reflexivity.
Defined.

(** ** Immutability of stored rows *)

Lemma rows_prefix_refl w w' : w_db w' = w_db w -> rows_of w `prefix_of` rows_of w'.
Proof. unfold rows_of. by intros ->. Qed.

Lemma rows_preserved_db_call c e w :
  rows_of w `prefix_of` rows_of (snd (run_db_call c e w)).
Proof.
  destruct c; unfold run_db_call, observe, rows_of; unfold_program; simpl;
    cases;
    repeat match goal with
           | H : attendance (w_db ?w) = _ |- context [attendance (w_db ?w)] =>
               rewrite H
           end;
    simplify_eq/=; try reflexivity; try (by apply prefix_nil);
    try (by eexists).
Qed.

Lemma generate_qr_code_keeps_db self user_id e w :
  w_db (snd (QRCodeService.generate_qr_code self user_id e w)) = w_db w.
Proof. unfold_program. simpl. cases; reflexivity. Qed.

Lemma generate_qr_keeps_db self request e w :
  w_db (snd (generate_qr self request e w)) = w_db w.
Proof.
  unfold generate_qr, internal_server_error, logger_error, try_except, bind, lift, ret, raise.
  destruct request as [data|x]; simpl; [|by cases].
  destruct (truthy data); simpl; [|reflexivity].
  destruct (data_get data (py "user_id")) as [user_id|x]; simpl; [|by cases].
  destruct (validate_user_id user_id) as [[]|x]; simpl; [| reflexivity | by cases].
  destruct user_id; simpl; try reflexivity.
  pose proof (generate_qr_code_keeps_db self s e w) as H.
  destruct (QRCodeService.generate_qr_code self s e w) as [[p|x] w1]; simpl in *;
    [exact H|]. by cases.
Qed.

Lemma mark_attendance_keeps_rows request e w :
  rows_of w `prefix_of` rows_of (snd (mark_attendance request e w)).
Proof.
  unfold mark_attendance, internal_server_error, logger_error, try_except, bind, lift, ret, raise.
  destruct request as [data|x]; simpl; [|by cases].
  destruct (truthy data); simpl; [|reflexivity].
  destruct (data_get data (py "user_id")) as [user_id|x]; simpl; [|by cases].
  destruct (validate_user_id user_id) as [[]|x]; simpl; [| reflexivity | by cases].
  destruct user_id; simpl; try reflexivity.
  pose proof (rows_preserved_db_call (CallMarkAttendance s) e w) as H.
  unfold run_db_call, observe in H. simpl in H.
  destruct (AttendanceService.mark_attendance s e w) as [[[]|x] w1]; simpl in *;
    [exact H|]. by cases.
Qed.

Lemma get_attendance_keeps_rows e w :
  rows_of w `prefix_of` rows_of (snd (get_attendance e w)).
Proof.
  unfold get_attendance, internal_server_error, logger_error, try_except, bind, ret.
  pose proof (rows_preserved_db_call CallGetAttendanceRecords e w) as H.
  unfold run_db_call, observe in H. simpl in H.
  destruct (AttendanceService.get_attendance_records e w) as [[records|x] w1];
    simpl in *; [exact H|]. by cases.
Qed.

Lemma rows_preserved_step op e w : rows_of w `prefix_of` rows_of (run op e w).
Proof.
  destruct op; simpl.
  - apply rows_preserved_db_call.
  - apply rows_prefix_refl, generate_qr_code_keeps_db.
  - apply rows_prefix_refl, generate_qr_keeps_db.
  - apply mark_attendance_keeps_rows.
  - apply get_attendance_keeps_rows.
Qed.

(** C7.  Over any history of operations (start-up, the service calls, the
    three handlers) in any environments, the rows stored at the beginning
    are still there at the end, in their places and with the same id,
    user_id and timestamps: the table after is the table before followed by
    the rows added since. *)
Theorem stored_rows_only_grow history w :
  exists added, rows_of (run_all history w) = rows_of w ++ added.
Proof.
  revert w. induction history as [|[op e] rest IH]; intros w; simpl.
  - exists []. by rewrite app_nil_r.
  - destruct (IH (run op e w)) as [added ->].
    destruct (rows_preserved_step op e w) as [k ->].
    exists (k ++ added). by rewrite app_assoc.
Qed.

(** ** Connections and transactions *)

Ltac with_statements l :=
  right; exists l; simpl;
  first [ left; reflexivity | right; split; reflexivity ].

Ltac find_scope user_id :=
  first [ left; split; reflexivity
        | with_statements [CreateTable]
        | with_statements [CreateTable; CreateIndex]
        | with_statements [InsertAttendance user_id]
        | with_statements [SelectAttendance] ].

Lemma not_in_scoped_calls ok calls :
  scoped_calls ok calls -> SqlClose ∉ calls.
Proof.
  assert (Hmap : forall l, SqlClose ∉ List.map SqlExecute l).
  { intros l Hin. apply list_elem_of_In, in_map_iff in Hin as (s & Hs & _).
    discriminate. }
  intros [[-> _]|(l & [->|[_ ->]])].
  - apply not_elem_of_nil.
  - rewrite elem_of_cons, elem_of_app. intros [H|[H|H]]; [discriminate|by eapply Hmap|].
    destruct ok; apply list_elem_of_singleton in H; discriminate.
  - rewrite elem_of_cons, elem_of_app. intros [H|[H|H]]; [discriminate|by eapply Hmap|].
    apply elem_of_cons in H as [H|H]; [discriminate|].
    apply list_elem_of_singleton in H; discriminate.
Qed.

(** C8 (as stated, refuted).  A call of [mark_attendance] that returns has
    connected, executed its INSERT and committed; it made no [close] call,
    so the count of connections opened and not closed is one higher after
    the call than before it. *)
Lemma connection_not_closed :
  let before := started_world in
  let after := snd (AttendanceService.mark_attendance (py "bob") (calm 5) before) in
  fst (AttendanceService.mark_attendance (py "bob") (calm 5) before) = Returned tt
  /\ w_sql after
     = w_sql before ++ [SqlConnect; SqlExecute (InsertAttendance (py "bob")); SqlCommit]
  /\ open_connections (w_sql after) = S (open_connections (w_sql before))
  /\ open_connections (w_sql after) <> open_connections (w_sql before).
Proof. repeat split. discriminate. Qed.

(** C8 (amended).  Every service call that obtains a connection ends the
    transaction of that connection on every exit path before it hands
    control back: its [sqlite3] calls are a connect, its statements, and
    then a commit when it returns or a rollback when it raises (also after
    a commit that failed), and no transaction is left open.  None of the
    calls is a [close]. *)
Theorem db_call_ends_transaction c e w :
  exists calls,
    w_sql (snd (run_db_call c e w)) = w_sql w ++ calls
    /\ scoped_calls (fst (run_db_call c e w)) calls
    /\ (calls = [] \/ w_txn (snd (run_db_call c e w)) = None)
    /\ SqlClose ∉ calls.
Proof.
  assert (H : exists calls,
    w_sql (snd (run_db_call c e w)) = w_sql w ++ calls
    /\ scoped_calls (fst (run_db_call c e w)) calls
    /\ (calls = [] \/ w_txn (snd (run_db_call c e w)) = None)).
  { destruct c as [|user_id|]; unfold run_db_call, observe; unfold_program; simpl;
      cases; rewrite <- ?app_assoc; simpl;
      eexists; (split; [first [reflexivity | symmetry; apply app_nil_r]|]);
      (split; [find_scope user_id || find_scope (@nil N) | auto]). }
  destruct H as (calls & H1 & H2 & H3). exists calls. repeat split; auto.
  by eapply not_in_scoped_calls.
Qed.

(** ** Splitting and joining paths *)

Lemma split_nonempty c s : split c s <> [].
Proof.
  destruct s as [|x r]; simpl; [discriminate|].
  destruct (x =? c)%N; [discriminate|]. destruct (split c r); discriminate.
Qed.

Lemma split_no_sep c s comp : comp ∈ split c s -> c ∉ comp.
Proof.
  revert comp. induction s as [|x r IH]; intros comp; simpl.
  - intros H. apply list_elem_of_singleton in H as ->. apply not_elem_of_nil.
  - destruct (N.eqb_spec x c) as [->|Hne].
    + intros H. apply elem_of_cons in H as [->|H]; [apply not_elem_of_nil|by apply IH].
    + destruct (split c r) as [|h t] eqn:E; [by destruct (split_nonempty c r)|].
      intros H. apply elem_of_cons in H as [->|H].
      * intros Hin. apply elem_of_cons in Hin as [->|Hin]; [done|].
        revert Hin. apply IH. by left.
      * apply IH. by right.
Qed.

Lemma join_split c s : join c (split c s) = s.
Proof.
  induction s as [|x r IH]; simpl; [reflexivity|].
  destruct (N.eqb_spec x c) as [->|Hne].
  - simpl. destruct (split c r) as [|h t] eqn:E; [by destruct (split_nonempty c r)|].
    by rewrite IH.
  - destruct (split c r) as [|h t] eqn:E; [by destruct (split_nonempty c r)|].
    rewrite <- IH. simpl. by destruct t.
Qed.

Lemma split_plain_comp c comp : c ∉ comp -> split c comp = [comp].
Proof.
  induction comp as [|x r IH]; intros H; simpl; [reflexivity|].
  apply not_elem_of_cons in H as [Hx Hr].
  destruct (N.eqb_spec x c) as [->|_]; [done|]. by rewrite IH.
Qed.

Lemma split_app_sep c comp s :
  c ∉ comp -> split c (comp ++ c :: s) = comp :: split c s.
Proof.
  induction comp as [|x r IH]; intros H; simpl.
  - by rewrite N.eqb_refl.
  - apply not_elem_of_cons in H as [Hx Hr].
    destruct (N.eqb_spec x c) as [->|_]; [done|]. by rewrite IH.
Qed.

Lemma split_join c comps :
  comps <> [] -> Forall (fun comp => c ∉ comp) comps ->
  split c (join c comps) = comps.
Proof.
  induction comps as [|h t IH]; intros Hne Hall; [done|].
  apply Forall_cons in Hall as [Hh Ht].
  destruct t as [|h' t'].
  - simpl. by apply split_plain_comp.
  - change (join c (h :: h' :: t')) with (h ++ c :: join c (h' :: t')).
    rewrite split_app_sep by done. f_equal. by apply IH.
Qed.

(** Appending a suffix without separator extends the last component. *)
Lemma split_app_suffix c s t :
  c ∉ t ->
  exists init l, split c s = init ++ [l] /\ split c (s ++ t) = init ++ [l ++ t].
Proof.
  intros Ht. induction s as [|x r (init & l & E1 & E2)]; simpl.
  - exists [], []. split; [reflexivity|]. simpl. by apply split_plain_comp.
  - destruct (N.eqb_spec x c) as [->|_].
    + exists ([] :: init), l. by rewrite E1, E2.
    + rewrite E1, E2. destruct init as [|h init']; simpl.
      * by exists [], (x :: l).
      * by exists ((x :: h) :: init'), l.
Qed.

Lemma startswith_app p s : startswith p (p ++ s) = true.
Proof. induction p as [|a p IH]; simpl; [done|]. by rewrite N.eqb_refl. Qed.

Lemma strip_prefix_app p s : strip_prefix p (p ++ s) = Some s.
Proof. induction p as [|a p IH]; simpl; [done|]. by rewrite N.eqb_refl. Qed.

Lemma plain_spec c :
  plain c = true <-> c <> [] /\ c <> dot /\ c <> dotdot.
Proof.
  unfold plain. rewrite negb_true_iff, !orb_false_iff, !str_eqb_neq. tauto.
Qed.

(** ** [normpath] and [safe_join] *)

Section Normpath.

(** The three ways the loop of [normpath] treats a component. *)
Lemma comp_cases c :
  (str_eqb c [] || str_eqb c dot = true)
  \/ (str_eqb c [] || str_eqb c dot = false /\ c = dotdot)
  \/ (str_eqb c [] || str_eqb c dot = false /\ str_eqb c dotdot = false
      /\ plain c = true).
Proof.
  unfold plain.
  destruct (str_eqb c [] || str_eqb c dot) eqn:E1; [by left|].
  destruct (str_eqb c dotdot) eqn:E2.
  - right; left. split; [done|]. by apply str_eqb_eq.
  - right; right. done.
Qed.

Lemma plain_not_skipped c :
  plain c = true ->
  str_eqb c [] || str_eqb c dot = false /\ str_eqb c dotdot = false.
Proof.
  unfold plain. rewrite negb_true_iff. intros H.
  apply orb_false_iff in H as [H1 H2]. done.
Qed.

(** Plain components are pushed in order. *)
Lemma loop_all_plain b acc comps :
  forallb plain comps = true ->
  normpath_loop b acc comps = rev comps ++ acc.
Proof.
  revert acc. induction comps as [|c rest IH]; intros acc H; simpl; [done|].
  simpl in H. apply andb_true_iff in H as [Hc Hrest].
  destruct (plain_not_skipped c Hc) as [-> ->]. simpl.
  rewrite IH by done. by rewrite <- app_assoc.
Qed.

(** A plain last component ends up on top. *)
Lemma loop_plain_last b acc comps c :
  plain c = true ->
  normpath_loop b acc (comps ++ [c]) = c :: normpath_loop b acc comps.
Proof.
  intros Hc. revert acc. induction comps as [|x rest IH]; intros acc; simpl.
  - by destruct (plain_not_skipped c Hc) as [-> ->].
  - destruct (str_eqb x [] || str_eqb x dot); [apply IH|].
    destruct (negb (str_eqb x dotdot) || negb b && bool_decide (acc = [])
              || match acc with [] => false | last :: _ => str_eqb last dotdot end);
      [apply IH|].
    destruct acc; apply IH.
Qed.

(** Once ".." is at the bottom of [new_comps] it stays there. *)
Lemma loop_keeps_bottom acc comps :
  last acc = Some dotdot ->
  last (normpath_loop false acc comps) = Some dotdot.
Proof.
  revert acc. induction comps as [|c rest IH]; intros acc Hacc; simpl; [done|].
  destruct (str_eqb c [] || str_eqb c dot); [by apply IH|].
  destruct acc as [|h t]; [discriminate|].
  destruct (str_eqb c dotdot) eqn:Ec; simpl.
  - destruct (str_eqb h dotdot) eqn:Eh; simpl.
    + apply IH. by rewrite last_cons, Hacc.
    + apply IH. destruct t as [|h' t']; [|by rewrite last_cons_cons in Hacc].
      simpl in Hacc. apply str_eqb_neq in Eh. congruence.
  - apply IH. by rewrite last_cons, Hacc.
Qed.

(** The loop against the walk: while the walk stays below the directory the
    stack holds plain components only, as many as the depth; when the walk
    climbs above it, ".." is at the bottom of the stack. *)
Lemma loop_descend acc comps :
  forallb plain acc = true ->
  match descend (length acc) comps with
  | Some d => forallb plain (normpath_loop false acc comps) = true
              /\ length (normpath_loop false acc comps) = d
  | None => last (normpath_loop false acc comps) = Some dotdot
  end.
Proof.
  revert acc. induction comps as [|c rest IH]; intros acc Hacc; simpl; [done|].
  destruct (comp_cases c) as [E|[[E ->]|(E & Ed & Hc)]]; rewrite E.
  - by apply IH.
  - change (str_eqb dotdot dotdot) with true. simpl.
    destruct acc as [|h t]; simpl.
    + by apply loop_keeps_bottom.
    + simpl in Hacc. apply andb_true_iff in Hacc as [Hh Ht].
      destruct (plain_not_skipped h Hh) as [_ ->]. by apply IH.
  - rewrite Ed. simpl. apply (IH (c :: acc)). simpl. by rewrite Hc.
Qed.

Lemma descend_all_plain depth comps :
  forallb plain comps = true ->
  descend depth comps = Some (depth + length comps)%nat.
Proof.
  revert depth. induction comps as [|c rest IH]; intros depth H; simpl.
  - f_equal. lia.
  - simpl in H. apply andb_true_iff in H as [Hc Hrest].
    destruct (plain_not_skipped c Hc) as [-> ->].
    rewrite IH by done. f_equal. lia.
Qed.

End Normpath.

Lemma loop_subset b acc comps x :
  x ∈ normpath_loop b acc comps -> x ∈ acc \/ x ∈ comps.
Proof.
  revert acc. induction comps as [|c rest IH]; intros acc; simpl; [by left|].
  destruct (str_eqb c [] || str_eqb c dot).
  { intros H. destruct (IH _ H); [by left|right; by right]. }
  destruct (negb (str_eqb c dotdot) || negb b && bool_decide (acc = [])
            || match acc with [] => false | last :: _ => str_eqb last dotdot end).
  { intros H. destruct (IH _ H) as [H'|H']; [|right; by right].
    apply elem_of_cons in H' as [->|H']; [right; by left|by left]. }
  destruct acc as [|h t]; intros H; destruct (IH _ H) as [H'|H'].
  - by left.
  - right; by right.
  - left; by right.
  - right; by right.
Qed.

Lemma join_dotdot_head rest :
  join sep (dotdot :: rest) = dotdot
  \/ startswith (dotdot ++ [sep]) (join sep (dotdot :: rest)) = true.
Proof.
  destruct rest as [|h t]; [by left|right].
  change (join sep (dotdot :: h :: t))
    with ((dotdot ++ [sep]) ++ join sep (h :: t)).
  apply startswith_app.
Qed.

Lemma startswith_cons a p b s :
  startswith (a :: p) (b :: s) = (a =? b)%N && startswith p s.
Proof. reflexivity. Qed.

Lemma startswith_sep_false a s : sep <> a -> startswith [sep] (a :: s) = false.
Proof.
  intros H. rewrite startswith_cons. apply N.eqb_neq in H. by rewrite H.
Qed.

(** A first component that is plain and free of separators is not where
    "../" begins. *)
Lemma plain_head_not_dotdot c rest :
  sep ∉ c -> plain c = true ->
  startswith (dotdot ++ [sep]) (c ++ rest) = true ->
  False.
Proof.
  intros Hsep Hp H. apply plain_spec in Hp as (Hne & Hdot & Hdd).
  unfold dotdot in *. simpl app in H.
  destruct c as [|a [|b [|d c3]]]; [done| | |].
  - simpl app in H. destruct rest as [|x rest']; [simpl in H; by rewrite andb_false_r in H|].
    rewrite !startswith_cons in H. apply andb_true_iff in H as [Ha H].
    apply andb_true_iff in H as [Hx _].
    apply N.eqb_eq in Ha, Hx. subst. done.
  - simpl app in H. rewrite !startswith_cons in H.
    apply andb_true_iff in H as [Ha H]. apply andb_true_iff in H as [Hb _].
    apply N.eqb_eq in Ha, Hb. subst. done.
  - simpl app in H. rewrite !startswith_cons in H.
    apply andb_true_iff in H as [_ H]. apply andb_true_iff in H as [_ H].
    apply andb_true_iff in H as [Hd _]. apply N.eqb_eq in Hd. subst d.
    apply Hsep. right. right. left.
Qed.

(** A path made of plain components passes the three tests of [safe_join]. *)
Lemma join_plain_passes comps :
  Forall (fun c => sep ∉ c) comps ->
  forallb plain comps = true ->
  isabs (join sep comps) = false
  /\ str_eqb (join sep comps) dotdot = false
  /\ startswith (dotdot ++ [sep]) (join sep comps) = false.
Proof.
  intros Hsep Hplain. destruct comps as [|c t]; [done|].
  apply Forall_cons in Hsep as [Hc _]. simpl in Hplain.
  apply andb_true_iff in Hplain as [Hp _].
  assert (Hj : exists rest, join sep (c :: t) = c ++ rest
                            /\ (rest = [] \/ exists r, rest = sep :: r)).
  { destruct t as [|h t'].
    - exists []. simpl. rewrite app_nil_r. auto.
    - eexists. split; [reflexivity|]. right. by eexists. }
  destruct Hj as (rest & -> & Hrest).
  pose proof Hp as Hp'. apply plain_spec in Hp' as (Hne & Hdot & Hdd).
  repeat split.
  - destruct c as [|a c1]; [done|]. unfold isabs. simpl app.
    apply startswith_sep_false. intros <-. apply Hc. by left.
  - apply str_eqb_neq. intros E.
    destruct Hrest as [->|[r ->]]; [by rewrite app_nil_r in E|].
    apply Hc. unfold dotdot in E.
    destruct c as [|a [|b c2]]; [done| |]; simpl in E.
    + injection E as _ E. discriminate E.
    + injection E as _ _ E. by destruct c2.
  - destruct (startswith (dotdot ++ [sep]) (c ++ rest)) eqn:E; [|done].
    by destruct (plain_head_not_dotdot c rest Hc Hp E).
Qed.

Lemma normpath_relative name :
  name <> [] -> isabs name = false ->
  normpath name
  = let path := join sep (rev (normpath_loop false [] (split sep name))) in
    if str_eqb path [] then dot else path.
Proof.
  intros Hne Habs. unfold normpath. apply str_eqb_neq in Hne. rewrite Hne.
  unfold isabs in Habs. rewrite Habs. reflexivity.
Qed.

Lemma normpath_absolute name : isabs name = true -> isabs (normpath name) = true.
Proof.
  unfold isabs, normpath. intros H.
  destruct name as [|a r]; [discriminate|].
  change (str_eqb (a :: r) []) with false. cbv iota.
  rewrite H. cbv zeta.
  destruct (startswith [sep; sep] (a :: r) && negb (startswith [sep; sep; sep] (a :: r)));
    reflexivity.
Qed.

(** A file name that escapes is refused. *)
Lemma safe_join_refuses directory name :
  escapes name = true -> safe_join directory name = None.
Proof.
  unfold escapes. intros H.
  destruct name as [|a r] eqn:En; [discriminate|]. rewrite <- En in *.
  assert (Hne : name <> []) by (rewrite En; discriminate).
  unfold safe_join. apply str_eqb_neq in Hne as Hne'. rewrite Hne'. cbv zeta iota. simpl negb.
  cbv iota.
  destruct (isabs name) eqn:Habs.
  - by rewrite (normpath_absolute _ Habs).
  - simpl in H. rewrite (normpath_relative _ Hne Habs). cbv zeta.
    pose proof (loop_descend [] (split sep name) eq_refl) as Hloop. simpl in Hloop.
    destruct (descend 0 (split sep name)); [discriminate|].
    apply last_Some in Hloop as [t ->].
    rewrite rev_app_distr. simpl rev. simpl app.
    destruct (join_dotdot_head (rev t)) as [E|E].
    + rewrite E. reflexivity.
    + assert (Hnn : str_eqb (join sep (dotdot :: rev t)) [] = false).
      { apply str_eqb_neq. intros E0. rewrite E0 in E. discriminate. }
      rewrite Hnn. simpl app in E. rewrite E. by rewrite !orb_true_r.
Qed.

Lemma join2_prefix directory path :
  isabs path = false ->
  join2 (if str_eqb directory [] then dot else directory) path
  = dir_prefix directory ++ path.
Proof.
  intros Habs. unfold join2, dir_prefix. unfold isabs in Habs. rewrite Habs.
  set (d := if str_eqb directory [] then dot else directory).
  assert (Hd : str_eqb d [] = false).
  { subst d. destruct (str_eqb directory []) eqn:E; [reflexivity|exact E]. }
  rewrite Hd. simpl. destruct (endswith [sep] d); [reflexivity|].
  by rewrite <- app_assoc.
Qed.

Lemma png_comp_plain l : plain (l ++ py ".png") = true.
Proof.
  apply plain_spec.
  assert (H : (4 <= length (l ++ py ".png"))%nat).
  { rewrite length_app. simpl. lia. }
  repeat split; intros E; rewrite E in H; simpl in H; lia.
Qed.

Lemma png_no_sep : sep ∉ py ".png".
Proof. intros H. repeat (apply elem_of_cons in H as [H|H]; [discriminate|]).
  by apply elem_of_nil in H. Qed.

(** What [safe_join] answers for the file name of a user_id that does not
    escape: the directory followed by the normalised name, which is made of
    plain components. *)
Lemma safe_join_png_inside directory user_id :
  escapes (user_id ++ py ".png") = false ->
  exists comps,
    comps <> [] /\ forallb plain comps = true
    /\ Forall (fun c => sep ∉ c) comps
    /\ normpath (user_id ++ py ".png") = join sep comps
    /\ safe_join directory (user_id ++ py ".png")
       = Some (dir_prefix directory ++ join sep comps).
Proof.
  set (name := user_id ++ py ".png"). unfold escapes. intros H.
  apply orb_false_iff in H as [Habs Hwalk].
  assert (Hne : name <> []).
  { subst name. destruct user_id; discriminate. }
  pose proof (loop_descend [] (split sep name) eq_refl) as Hloop. simpl in Hloop.
  destruct (descend 0 (split sep name)) as [d|]; [|discriminate].
  destruct Hloop as [Hplain _].
  destruct (split_app_suffix sep user_id (py ".png") png_no_sep)
    as (init & l & _ & Esplit).
  fold name in Esplit.
  set (L := normpath_loop false [] (split sep name)) in *.
  assert (HL : L = (l ++ py ".png") :: normpath_loop false [] init).
  { subst L. rewrite Esplit. apply loop_plain_last, png_comp_plain. }
  exists (rev L).
  assert (Hrev_ne : rev L <> []).
  { rewrite HL. simpl. intros E. by apply app_eq_nil in E as [_ E]. }
  assert (Hrev_plain : forallb plain (rev L) = true) by (by rewrite forallb_rev).
  assert (Hrev_sep : Forall (fun c => sep ∉ c) (rev L)).
  { apply Forall_forall. intros c Hc. apply list_elem_of_In, in_rev, list_elem_of_In in Hc.
    apply loop_subset in Hc as [Hc|Hc]; [by apply elem_of_nil in Hc|].
    by eapply split_no_sep. }
  assert (Hj : join sep (rev L) <> []).
  { intros E. pose proof (split_join sep (rev L) Hrev_ne Hrev_sep) as Hs.
    rewrite E in Hs. simpl in Hs. rewrite <- Hs in Hrev_plain. discriminate. }
  assert (Hnorm : normpath name = join sep (rev L)).
  { rewrite (normpath_relative _ Hne Habs). cbv zeta. fold L.
    apply str_eqb_neq in Hj. by rewrite Hj. }
  repeat split; try assumption.
  unfold safe_join. apply str_eqb_neq in Hne. rewrite Hne. simpl negb. cbv iota zeta.
  rewrite Hnorm.
  destruct (join_plain_passes (rev L) Hrev_sep Hrev_plain) as (-> & -> & ->).
  simpl. f_equal. apply join2_prefix.
  by destruct (join_plain_passes (rev L) Hrev_sep Hrev_plain) as (? & _).
Qed.

(** Every path [safe_join] answers for a user_id is confined. *)
Lemma safe_join_png_confined directory user_id path :
  safe_join directory (user_id ++ py ".png") = Some path ->
  confined directory path = true.
Proof.
  intros H. destruct (escapes (user_id ++ py ".png")) eqn:E.
  { rewrite (safe_join_refuses _ _ E) in H. discriminate. }
  destruct (safe_join_png_inside directory user_id E)
    as (comps & Hne & Hplain & Hsep & _ & Hsafe).
  rewrite Hsafe in H. injection H as <-.
  unfold confined. rewrite strip_prefix_app. by rewrite split_join.
Qed.

Lemma plain_split_relative name :
  forallb plain (split sep name) = true -> isabs name = false.
Proof.
  intros H. destruct name as [|a r]; [done|].
  destruct (decide (sep = a)) as [<-|Hne].
  - cbn [split] in H. rewrite N.eqb_refl in H. discriminate H.
  - by apply startswith_sep_false.
Qed.

(** A name made of plain components is its own normal form. *)
Lemma normpath_plain name :
  forallb plain (split sep name) = true -> normpath name = name.
Proof.
  intros H.
  assert (Hne : name <> []) by (intros ->; discriminate).
  pose proof (plain_split_relative _ H) as Habs.
  rewrite (normpath_relative _ Hne Habs). cbv zeta.
  rewrite (loop_all_plain _ _ _ H), app_nil_r, rev_involutive, join_split.
  apply str_eqb_neq in Hne. by rewrite Hne.
Qed.

Lemma escapes_plain name :
  forallb plain (split sep name) = true -> escapes name = false.
Proof.
  intros H. unfold escapes. rewrite (descend_all_plain 0 _ H).
  by rewrite (plain_split_relative _ H).
Qed.

(** ** [generate_qr_code] *)

(** The runs of [generate_qr_code], by what the environment does. *)
Lemma generate_qr_code_runs self user_id e w :
  QRCodeService.generate_qr_code self user_id e w
  = match encode_fault e with
    | Some x =>
        (Raised generation_failed,
         logged (py "Error generating QR code: " ++ exn_str x) w)
    | None =>
        match safe_join (QRCodeService.qr_codes_dir self) (user_id ++ py ".png") with
        | Some qr_path =>
            if truthy (JString qr_path) then
              match save_fault e with
              | None =>
                  (Returned qr_path, written qr_path (PngFile (image_of user_id)) w)
              | Some (x, false) =>
                  (Raised generation_failed,
                   logged (py "Error generating QR code: " ++ exn_str x) w)
              | Some (x, true) =>
                  (Raised generation_failed,
                   logged (py "Error generating QR code: " ++ exn_str x)
                     (written qr_path PartialFile w))
              end
            else
              (Raised generation_failed,
               logged (py "Error generating QR code: Invalid QR code path") w)
        | None =>
            (Raised generation_failed,
             logged (py "Error generating QR code: Invalid QR code path") w)
        end
    end.
Proof.
  unfold_program. unfold generation_failed, logged, written, image_of. simpl.
  destruct (encode_fault e); [reflexivity|].
  destruct (safe_join _ _) as [p|]; [|reflexivity].
  destruct p; [reflexivity|]. simpl.
  destruct (save_fault e) as [[x []]|]; reflexivity.
Qed.

(** C10.  Whatever fails inside [generate_qr_code], the caller sees the one
    exception [QRCodeError("Failed to generate QR code")]: the call either
    returns a path or raises exactly that.  This holds for the service's
    own rejection of an unsafe path, whose "Invalid QR code path" only
    reaches the log, as for a failure of the encoder and a failure of the
    write, so the caller cannot tell them apart. *)
Theorem generate_qr_code_one_failure self user_id e w :
  ((exists qr_path, fst (QRCodeService.generate_qr_code self user_id e w)
                    = Returned qr_path)
   \/ fst (QRCodeService.generate_qr_code self user_id e w) = Raised generation_failed)
  /\ (encode_fault e = None ->
      safe_join (QRCodeService.qr_codes_dir self) (user_id ++ py ".png") = None ->
      QRCodeService.generate_qr_code self user_id e w
      = (Raised generation_failed,
         logged (py "Error generating QR code: Invalid QR code path") w))
  /\ (forall x, encode_fault e = Some x ->
      fst (QRCodeService.generate_qr_code self user_id e w) = Raised generation_failed)
  /\ (forall x created, encode_fault e = None -> save_fault e = Some (x, created) ->
      fst (QRCodeService.generate_qr_code self user_id e w) = Raised generation_failed).
Proof.
  rewrite generate_qr_code_runs. repeat split.
  - destruct (encode_fault e); [by right|].
    destruct (safe_join _ _) as [p|]; [|by right].
    destruct (truthy (JString p)); [|by right].
    destruct (save_fault e) as [[x []]|]; [by right|by right|left; by eexists].
  - by intros -> ->.
  - by intros x ->.
  - intros x created -> ->.
    destruct (safe_join _ _) as [p|]; [|done].
    destruct (truthy (JString p)); [|done]. by destruct created.
Qed.

Lemma generate_qr_code_one_failure_witness :
  QRCodeService.generate_qr_code default_service (py "../evil") (calm 0) started_world
  = (Raised generation_failed,
     logged (py "Error generating QR code: Invalid QR code path") started_world).
Proof.
  exact (proj1 (proj2 (generate_qr_code_one_failure default_service (py "../evil")
                         (calm 0) started_world)) eq_refl eq_refl).
Defined.

(** C1 (as stated, refuted).  The user_id "a/../b" carries a traversal
    sequence, and [generate_qr_code] does not fail on it: the file name is
    normalised to "b.png" and written inside the directory. *)
Lemma inner_traversal_accepted :
  has_traversal_sequence (py "a/../b") = true
  /\ QRCodeService.generate_qr_code default_service (py "a/../b") (calm 0) started_world
     = (Returned (py "qrcodes/b.png"),
        written (py "qrcodes/b.png") (PngFile (image_of (py "a/../b"))) started_world)
  /\ ~ (exists x, fst (QRCodeService.generate_qr_code default_service (py "a/../b")
                         (calm 0) started_world) = Raised x).
Proof.
  split; [reflexivity|]. split; [reflexivity|].
  intros [x H]. rewrite generate_qr_code_runs in H. discriminate H.
Qed.

(** C1 (amended).  For every user_id whose file name [<user_id>.png]
    escapes the output directory (it is absolute, or its components climb
    above the directory at some point, as for "../evil"),
    [generate_qr_code] fails with [QRCodeError] and leaves the world as it
    was but for one log record: nothing is written anywhere.  For every
    user_id, every path whose file the call changes is confined to the
    output directory; and whenever the path is refused, no file changes. *)
Theorem generate_qr_code_confined self user_id e w :
  (escapes (user_id ++ py ".png") = true ->
   QRCodeService.generate_qr_code self user_id e w
   = (Raised generation_failed,
      logged (py "Error generating QR code: "
              ++ match encode_fault e with
                 | Some x => exn_str x
                 | None => py "Invalid QR code path"
                 end) w))
  /\ (forall path,
        w_fs (snd (QRCodeService.generate_qr_code self user_id e w)) !! path
          <> w_fs w !! path ->
        confined (QRCodeService.qr_codes_dir self) path = true)
  /\ (safe_join (QRCodeService.qr_codes_dir self) (user_id ++ py ".png") = None ->
      fst (QRCodeService.generate_qr_code self user_id e w) = Raised generation_failed
      /\ w_fs (snd (QRCodeService.generate_qr_code self user_id e w)) = w_fs w).
Proof.
  rewrite generate_qr_code_runs. split; [|split].
  - intros H. rewrite (safe_join_refuses _ _ H). by destruct (encode_fault e).
  - intros path.
    destruct (encode_fault e); [done|].
    destruct (safe_join _ _) as [p|] eqn:Hsafe; [|done].
    apply safe_join_png_confined in Hsafe.
    assert (Hw : forall f, <[p := f]> (w_fs w) !! path <> w_fs w !! path ->
                           confined (QRCodeService.qr_codes_dir self) path = true).
    { intros f Hdiff. destruct (decide (p = path)) as [<-|Hne]; [done|].
      by rewrite lookup_insert_ne in Hdiff. }
    destruct (truthy (JString p)); [|done].
    destruct (save_fault e) as [[x []]|]; simpl; [apply Hw|done|apply Hw].
  - intros ->. by destruct (encode_fault e).
Qed.

Lemma generate_qr_code_confined_witness :
  QRCodeService.generate_qr_code default_service (py "../evil") (calm 0) started_world
  = (Raised generation_failed,
     logged (py "Error generating QR code: Invalid QR code path") started_world)
  /\ confined (py "qrcodes") (py "qrcodes/alice.png") = true.
Proof.
  split.
  - exact (proj1 (generate_qr_code_confined default_service (py "../evil")
                    (calm 0) started_world) eq_refl).
  - apply (proj1 (proj2 (generate_qr_code_confined default_service (py "alice")
                           (calm 0) started_world)) (py "qrcodes/alice.png")).
    vm_compute. discriminate.
Defined.

(** C6 (as stated, refuted).  The user_id "./a" is valid, and a successful
    [generate_qr_code] writes and returns "qrcodes/a.png", which is not
    [<output_dir>/<user_id>.png], that is "qrcodes/./a.png". *)
Lemma normalised_path_differs :
  validate_user_id (JString (py "./a")) = Returned true
  /\ QRCodeService.generate_qr_code default_service (py "./a") (calm 0) started_world
     = (Returned (py "qrcodes/a.png"),
        written (py "qrcodes/a.png") (PngFile (image_of (py "./a"))) started_world)
  /\ py "qrcodes/a.png"
     <> QRCodeService.qr_codes_dir default_service ++ py "/" ++ py "./a" ++ py ".png".
Proof. repeat split. discriminate. Qed.

(** C6 (amended).  A successful [generate_qr_code] writes the image of the
    user_id to exactly one path and returns that path: the output directory
    followed by the normal form of [<user_id>.png], which is
    [<user_id>.png] itself when all its components are plain.  Nothing else
    changes.  A second successful call with the same user_id returns the
    same path and overwrites the same file: the files present, and their
    contents, are what they were after the first call. *)
Theorem generate_qr_code_overwrites self user_id e w qr_path w' :
  QRCodeService.generate_qr_code self user_id e w = (Returned qr_path, w') ->
  qr_path = dir_prefix (QRCodeService.qr_codes_dir self) ++ normpath (user_id ++ py ".png")
  /\ (forallb plain (split sep (user_id ++ py ".png")) = true ->
      qr_path = dir_prefix (QRCodeService.qr_codes_dir self) ++ user_id ++ py ".png")
  /\ w' = written qr_path (PngFile (image_of user_id)) w
  /\ forall e2 qr_path2 w2,
       QRCodeService.generate_qr_code self user_id e2 w' = (Returned qr_path2, w2) ->
       qr_path2 = qr_path /\ w_fs w2 = w_fs w' /\ dom (w_fs w2) = dom (w_fs w').
Proof.
  intros H.
  assert (Hrun : safe_join (QRCodeService.qr_codes_dir self) (user_id ++ py ".png")
                 = Some qr_path
                 /\ w' = written qr_path (PngFile (image_of user_id)) w).
  { rewrite generate_qr_code_runs in H.
    destruct (encode_fault e); [discriminate|].
    destruct (safe_join _ _) as [p|]; [|discriminate].
    destruct (truthy (JString p)); [|discriminate].
    destruct (save_fault e) as [[x []]|]; try discriminate.
    by injection H as <- <-. }
  destruct Hrun as [Hsafe Hw'].
  assert (Hpath : qr_path = dir_prefix (QRCodeService.qr_codes_dir self)
                            ++ normpath (user_id ++ py ".png")).
  { destruct (escapes (user_id ++ py ".png")) eqn:E.
    { rewrite (safe_join_refuses _ _ E) in Hsafe. discriminate. }
    destruct (safe_join_png_inside (QRCodeService.qr_codes_dir self) user_id E)
      as (comps & _ & _ & _ & Hnorm & Hs).
    rewrite Hs in Hsafe. injection Hsafe as <-. by rewrite Hnorm. }
  split; [exact Hpath|]. split; [|split; [exact Hw'|]].
  - intros Hplain. rewrite Hpath. by rewrite (normpath_plain _ Hplain).
  - intros e2 qr_path2 w2 H2. rewrite generate_qr_code_runs in H2.
    destruct (encode_fault e2); [discriminate|]. rewrite Hsafe in H2.
    destruct (truthy (JString qr_path)); [|discriminate].
    destruct (save_fault e2) as [[x []]|]; try discriminate.
    injection H2 as <- <-. subst w'. simpl.
    rewrite insert_insert_eq. done.
Qed.

Lemma generate_qr_code_overwrites_witness :
  py "qrcodes/alice.png"
  = dir_prefix (py "qrcodes") ++ normpath (py "alice" ++ py ".png")
  /\ (forallb plain (split sep (py "alice" ++ py ".png")) = true ->
      py "qrcodes/alice.png" = dir_prefix (py "qrcodes") ++ py "alice" ++ py ".png").
Proof.
  destruct (generate_qr_code_overwrites default_service (py "alice") (calm 0)
              started_world (py "qrcodes/alice.png")
              (written (py "qrcodes/alice.png") (PngFile (image_of (py "alice")))
                 started_world) eq_refl) as (H1 & H2 & _).
  exact (conj H1 H2).
Defined.

(** * Further properties of the code *)

(** ** Configuration *)

(** [Config.ALLOWED_ORIGINS] is never the empty list, none of its origins
    holds a comma, and joining them with commas gives back the configured
    value (["*"] when the variable is unset): an empty variable yields the
    one origin [""]. *)
Theorem allowed_origins_round_trip (value : option pystr) :
  Config.ALLOWED_ORIGINS value <> []
  /\ Forall (fun origin => 44%N ∉ origin) (Config.ALLOWED_ORIGINS value)
  /\ join 44 (Config.ALLOWED_ORIGINS value) = Config.getenv value (py "*")
  /\ Config.ALLOWED_ORIGINS None = [py "*"]
  /\ Config.ALLOWED_ORIGINS (Some []) = [[]].
Proof.
  unfold Config.ALLOWED_ORIGINS. split; [apply split_nonempty|].
  split; [|split; [apply join_split|split; reflexivity]].
  apply Forall_forall. intros origin. apply split_no_sep.
Qed.

(** ** The database calls *)

Lemma not_sqlite3_error x : is_sqlite3_error x = false -> exn_cls x <> Sqlite3Error.
Proof. unfold is_sqlite3_error. apply bool_decide_eq_false. Qed.

Lemma bind_text_class s x :
  Sqlite.bind_text s = Some x -> exn_cls x = UnicodeEncodeError.
Proof.
  unfold Sqlite.bind_text. destruct (Sqlite.encode_error_text s 0); [|done].
  by intros [= <-].
Qed.

Lemma db_call_raises c e w x :
  db_call_exn c e w = Some x ->
  exn_cls x <> Sqlite3Error
  /\ (x = connect_failed \/ x = own_failure c
      \/ (library_raised c e x /\ is_sqlite3_error x = false)).
Proof.
  unfold db_call_exn, library_raised, db_fault.
  destruct c as [|user_id|]; unfold_program; simpl; cases; intros H;
    simplify_eq/=;
    try (split; [discriminate|tauto]);
    (split; [by apply not_sqlite3_error|]);
    right; right; (split; [|assumption]); eauto 7.
Qed.

(** No [sqlite3.Error] leaves [init_db], [mark_attendance] or
    [get_attendance_records]: what such a call raises is the application's
    "Failed to connect to database", the call's own [DatabaseError], or an
    exception of another class that the library raised, passed on as it
    is. *)
Theorem db_call_wraps_sqlite3_errors c e w x :
  db_call_exn c e w = Some x ->
  exn_cls x <> Sqlite3Error
  /\ (x = connect_failed \/ x = own_failure c
      \/ (library_raised c e x /\ is_sqlite3_error x = false)).
Proof. apply db_call_raises. Qed.

Lemma db_call_wraps_sqlite3_errors_witness :
  exn_cls mark_failed <> Sqlite3Error
  /\ (mark_failed = connect_failed \/ mark_failed = own_failure (CallMarkAttendance (py "bob"))
      \/ (library_raised (CallMarkAttendance (py "bob")) (calm 0) mark_failed
          /\ is_sqlite3_error mark_failed = false)).
Proof.
  apply (db_call_wraps_sqlite3_errors (CallMarkAttendance (py "bob")) (calm 0) empty_world).
  reflexivity.
Defined.

(** [mark_attendance] is all or nothing: when it returns, the table has
    exactly one more row and the counter of [sqlite_sequence] is that row's
    id; when it raises, whatever the failure, also a failed commit, the
    database file is what it was.  Files are never touched, and no
    transaction stays open once a connection was obtained. *)
Theorem mark_attendance_all_or_nothing user_id e w :
  let after := snd (AttendanceService.mark_attendance user_id e w) in
  w_fs after = w_fs w
  /\ (connect_fault e = None -> w_txn after = None)
  /\ match fst (AttendanceService.mark_attendance user_id e w) with
     | Returned _ =>
         exists rows new_id,
           attendance (w_db w) = Some rows
           /\ new_id = Z.max (sqlite_sequence (w_db w)) (Sqlite.largest_rowid rows) + 1
           /\ w_db after
              = Db (Some (rows ++ [Row new_id user_id (now e) (now e)])) new_id
                   (idx_user_id_timestamp (w_db w))
     | Raised _ => w_db after = w_db w
     end.
Proof.
  unfold_program. simpl. cases; intros; simplify_eq/=;
    repeat split; try reflexivity; try discriminate; eauto.
Qed.

Lemma mark_attendance_all_or_nothing_witness :
  w_txn (snd (AttendanceService.mark_attendance (py "bob") (calm 3) started_world))
  = None.
Proof.
  apply (mark_attendance_all_or_nothing (py "bob") (calm 3) started_world).
  reflexivity.
Defined.

(** [get_attendance_records] only reads: in every run the database file
    and the files are what they were.  When it returns, the list holds
    every row of the table exactly once (no filtering, no paging), newest
    first. *)
Theorem get_attendance_records_full_table e w :
  let run := AttendanceService.get_attendance_records e w in
  w_db (snd run) = w_db w
  /\ w_fs (snd run) = w_fs w
  /\ match fst run with
     | Returned records =>
         is_Some (attendance (w_db w))
         /\ records ≡ₚ rows_of w
         /\ length records = length (rows_of w)
         /\ descending records
     | Raised _ => True
     end.
Proof.
  cbv zeta.
  assert (Hsame : w_db (snd (AttendanceService.get_attendance_records e w)) = w_db w
                  /\ w_fs (snd (AttendanceService.get_attendance_records e w)) = w_fs w).
  { unfold_program. simpl. cases; by split. }
  destruct Hsame as [Hdb Hfs]. split; [exact Hdb|]. split; [exact Hfs|].
  destruct (AttendanceService.get_attendance_records e w) as [[records|x] w'] eqn:H;
    [|exact I].
  destruct (get_attendance_records_returns _ _ _ _ H) as (rows & Hrows & -> & _).
  unfold rows_of. rewrite Hrows. simpl.
  split; [by eexists|]. split; [apply merge_sort_Permutation|].
  split; [by rewrite merge_sort_Permutation|].
  apply StronglySorted_descending, StronglySorted_merge_sort; apply _.
Qed.

Lemma init_db_returns e w w' :
  Database.init_db e w = (Returned tt, w') ->
  w_db w' = Db (Some (rows_of w)) (sqlite_sequence (w_db w)) true
  /\ w_fs w' = w_fs w.
Proof.
  unfold rows_of. unfold_program. simpl. cases; intros; simplify_eq/=; by split.
Qed.

(** [init_db] that returns leaves a database with the table and the index,
    holding the rows it held before (none when the table was missing) and
    the same AUTOINCREMENT counter; running it again changes nothing. *)
Theorem init_db_idempotent e w w' :
  Database.init_db e w = (Returned tt, w') ->
  w_db w' = Db (Some (rows_of w)) (sqlite_sequence (w_db w)) true
  /\ forall e2 w2, Database.init_db e2 w' = (Returned tt, w2) -> w_db w2 = w_db w'.
Proof.
  intros H. destruct (init_db_returns _ _ _ H) as [Hdb _]. split; [exact Hdb|].
  intros e2 w2 H2. destruct (init_db_returns _ _ _ H2) as [Hdb2 _].
  rewrite Hdb2. unfold rows_of. by rewrite Hdb.
Qed.

Lemma init_db_idempotent_witness :
  w_db started_world = Db (Some []) 0 true
  /\ forall e2 w2, Database.init_db e2 started_world = (Returned tt, w2) ->
                   w_db w2 = w_db started_world.
Proof.
  exact (init_db_idempotent (calm 0) empty_world started_world eq_refl).
Defined.

(** ** The handlers as functions of their request *)

Lemma answer_database_error_world x w :
  w_db (snd (answer_database_error x w)) = w_db w
  /\ w_fs (snd (answer_database_error x w)) = w_fs w.
Proof. unfold answer_database_error. by destruct (bool_decide _). Qed.

Lemma answer_qr_error_world x w :
  w_db (snd (answer_qr_error x w)) = w_db w
  /\ w_fs (snd (answer_qr_error x w)) = w_fs w.
Proof. unfold answer_qr_error. by destruct (bool_decide _). Qed.

Lemma mark_attendance_keeps_fs user_id e w :
  w_fs (snd (AttendanceService.mark_attendance user_id e w)) = w_fs w.
Proof. unfold_program. simpl. by cases. Qed.

Lemma get_attendance_records_reads_only e w :
  w_db (snd (AttendanceService.get_attendance_records e w)) = w_db w
  /\ w_fs (snd (AttendanceService.get_attendance_records e w)) = w_fs w.
Proof. unfold_program. simpl. cases; by split. Qed.

(** [mark_attendance], by what it finds in the request. *)
Lemma mark_attendance_runs request e w :
  mark_attendance request e w
  = match parse request with
    | NoData => (Returned no_data_response, w)
    | InvalidUserId => (Returned invalid_response, w)
    | UserId user_id =>
        match AttendanceService.mark_attendance user_id e w with
        | (Returned _, w') => (Returned marked_response, w')
        | (Raised x, w') => answer_database_error x w'
        end
    | Failed x => answer_database_error x w
    end.
Proof.
  unfold mark_attendance, parse, answer_database_error, internal_server_error,
    logger_error, try_except, bind, lift, ret, raise.
  destruct request as [data|x]; simpl; [|by destruct (bool_decide _)].
  destruct (truthy data); simpl; [|reflexivity].
  destruct (data_get data (py "user_id")) as [v|x]; simpl;
    [|by destruct (bool_decide _)].
  destruct (validate_user_id v) as [[]|x]; simpl;
    [|reflexivity|by destruct (bool_decide _)].
  destruct v; simpl; try reflexivity.
  destruct (AttendanceService.mark_attendance s e w) as [[[]|x] w1]; simpl;
    [reflexivity|by destruct (bool_decide _)].
Qed.

(** [generate_qr], by what it finds in the request. *)
Lemma generate_qr_runs self request e w :
  generate_qr self request e w
  = match parse request with
    | NoData => (Returned no_data_response, w)
    | InvalidUserId => (Returned invalid_response, w)
    | UserId user_id =>
        match QRCodeService.generate_qr_code self user_id e w with
        | (Returned qr_path, w') => (Returned (generated_response qr_path), w')
        | (Raised x, w') => answer_qr_error x w'
        end
    | Failed x => answer_qr_error x w
    end.
Proof.
  unfold generate_qr, parse, answer_qr_error, internal_server_error,
    logger_error, try_except, bind, lift, ret, raise.
  destruct request as [data|x]; simpl; [|by destruct (bool_decide _)].
  destruct (truthy data); simpl; [|reflexivity].
  destruct (data_get data (py "user_id")) as [v|x]; simpl;
    [|by destruct (bool_decide _)].
  destruct (validate_user_id v) as [[]|x]; simpl;
    [|reflexivity|by destruct (bool_decide _)].
  destruct v; simpl; try reflexivity.
  destruct (QRCodeService.generate_qr_code self s e w) as [[p|x] w1]; simpl;
    [reflexivity|by destruct (bool_decide _)].
Qed.

(** [get_attendance], by what the service does. *)
Lemma get_attendance_runs e w :
  get_attendance e w
  = match AttendanceService.get_attendance_records e w with
    | (Returned records, w') =>
        (Returned (Response 200 (JArray (List.map row_to_json records))), w')
    | (Raised x, w') => answer_database_error x w'
    end.
Proof.
  unfold get_attendance, answer_database_error, internal_server_error,
    logger_error, try_except, bind, ret.
  destruct (AttendanceService.get_attendance_records e w) as [[records|x] w1];
    simpl; [reflexivity|by destruct (bool_decide _)].
Qed.

(** ** The table over histories *)

Lemma db_call_rows c e w :
  (appends_at_most_one e w (snd (run_db_call c e w))
   /\ (is_Some (attendance (w_db w)) ->
       is_Some (attendance (w_db (snd (run_db_call c e w))))))
  /\ (match c with CallMarkAttendance _ => True
      | _ => rows_of (snd (run_db_call c e w)) = rows_of w end).
Proof.
  unfold appends_at_most_one, rows_of.
  destruct c as [|user_id|]; unfold run_db_call, observe; unfold_program; simpl;
    cases;
    repeat match goal with
           | H : attendance (w_db ?w) = _ |- context [attendance (w_db ?w)] =>
               rewrite H
           end;
    simplify_eq/=;
    (split; [split; [first [by left | right; by eexists] | ]|]);
    try done; try (intros [? ?]; done); by eexists.
Qed.

Lemma mark_attendance_world request e w :
  (w_db (snd (mark_attendance request e w)) = w_db w
   \/ exists user_id,
        w_db (snd (mark_attendance request e w))
        = w_db (snd (run_db_call (CallMarkAttendance user_id) e w)))
  /\ w_fs (snd (mark_attendance request e w)) = w_fs w.
Proof.
  rewrite mark_attendance_runs.
  destruct (parse request) as [| |user_id|x]; try (by split; [left|]).
  - pose proof (mark_attendance_keeps_fs user_id e w) as Hfs.
    unfold run_db_call, observe. simpl.
    destruct (AttendanceService.mark_attendance user_id e w) as [[[]|x] w1] eqn:Hrun;
      simpl in *.
    + split; [right; exists user_id; by rewrite Hrun|done].
    + destruct (answer_database_error_world x w1) as [-> ->].
      split; [right; exists user_id; by rewrite Hrun|done].
  - destruct (answer_database_error_world x w) as [-> ->]. by split; [left|].
Qed.

Lemma get_attendance_world e w :
  w_db (snd (get_attendance e w)) = w_db w
  /\ w_fs (snd (get_attendance e w)) = w_fs w.
Proof.
  rewrite get_attendance_runs.
  pose proof (get_attendance_records_reads_only e w) as [Hdb Hfs].
  destruct (AttendanceService.get_attendance_records e w) as [[records|x] w1];
    simpl in *; [done|]. by destruct (answer_database_error_world x w1) as [-> ->].
Qed.

Lemma appends_at_most_one_db e w w1 w2 :
  w_db w2 = w_db w1 -> appends_at_most_one e w w1 -> appends_at_most_one e w w2.
Proof. unfold appends_at_most_one, rows_of. by intros ->. Qed.

Lemma run_rows op e w :
  appends_at_most_one e w (run op e w)
  /\ (is_Some (attendance (w_db w)) -> is_Some (attendance (w_db (run op e w))))
  /\ (is_mark op = false -> rows_of (run op e w) = rows_of w).
Proof.
  assert (Hsame : forall w', w_db w' = w_db w ->
            appends_at_most_one e w w'
            /\ (is_Some (attendance (w_db w)) -> is_Some (attendance (w_db w')))
            /\ rows_of w' = rows_of w).
  { intros w' Hdb. unfold appends_at_most_one, rows_of. rewrite Hdb. auto. }
  destruct op as [c|self user_id|self request|request|]; simpl.
  - destruct (db_call_rows c e w) as [[H1 H2] H3]. repeat split; try done.
    destruct c; simpl; try done.
  - destruct (Hsame _ (generate_qr_code_keeps_db self user_id e w)) as (?&?&?). done.
  - destruct (Hsame _ (generate_qr_keeps_db self request e w)) as (?&?&?). done.
  - destruct (mark_attendance_world request e w) as [[Hdb|[user_id Hdb]] _].
    + destruct (Hsame _ Hdb) as (?&?&?). done.
    + destruct (db_call_rows (CallMarkAttendance user_id) e w) as [[H1 H2] _].
      split; [by eapply appends_at_most_one_db|]. split; [by rewrite Hdb|done].
  - destruct (get_attendance_world e w) as [Hdb _].
    destruct (Hsame _ Hdb) as (?&?&?). done.
Qed.

(** Every operation leaves the rows as they are or appends exactly one row,
    whose id is one more than the largest id the table ever held and whose
    two timestamps are the time of the insertion; only the two marking
    operations, the service call and its handler, ever append. *)
Theorem operation_appends_at_most_one op e w :
  appends_at_most_one e w (run op e w)
  /\ (is_mark op = false -> rows_of (run op e w) = rows_of w).
Proof. destruct (run_rows op e w) as (H1 & _ & H3). by split. Qed.

Lemma operation_appends_at_most_one_witness :
  rows_of (run GetAttendance (calm 4) started_world) = rows_of started_world.
Proof.
  apply (operation_appends_at_most_one GetAttendance (calm 4) started_world).
  reflexivity.
Defined.

Lemma StronglySorted_lt_NoDup (l : list Z) : StronglySorted Z.lt l -> NoDup l.
Proof.
  induction 1 as [|x l _ IH Hx]; constructor; [|exact IH].
  intros Hin. rewrite Forall_forall in Hx. specialize (Hx x Hin). lia.
Qed.

Lemma table_ok_step e w w' :
  appends_at_most_one e w w' -> table_ok (rows_of w) -> table_ok (rows_of w').
Proof.
  intros [->|[user_id ->]] [Hsorted Hrows]; [done|].
  split.
  - rewrite map_app. apply StronglySorted_app_2; [|done|repeat constructor].
    intros x1 x2 H1 H2. apply list_elem_of_singleton in H2 as ->. simpl.
    apply list_elem_of_In, in_map_iff in H1 as (r & <- & Hr).
    apply list_elem_of_In, largest_rowid_bound in Hr. lia.
  - apply Forall_app. split; [done|]. constructor; [|constructor]. simpl.
    split; [|done].
    assert (0 <= Sqlite.largest_rowid (rows_of w)); [|lia].
    generalize (rows_of w). induction l; simpl; lia.
Qed.

(** Along any history of operations, from a table that is in order: the
    ids stay positive, strictly increasing in table order and so pairwise
    distinct, every row keeps [created_at] equal to [timestamp], and a
    table that exists keeps existing.  The table [init_db] creates is in
    order. *)
Theorem table_stays_in_order history w :
  table_ok (rows_of w) ->
  table_ok (rows_of (run_all history w))
  /\ NoDup (List.map row_id (rows_of (run_all history w)))
  /\ (is_Some (attendance (w_db w)) ->
      is_Some (attendance (w_db (run_all history w)))).
Proof.
  revert w. induction history as [|[op e] rest IH]; intros w Hok; simpl.
  - split; [done|]. split; [|done]. by apply StronglySorted_lt_NoDup, Hok.
  - destruct (run_rows op e w) as (Hstep & Hsome & _).
    destruct (IH (run op e w) (table_ok_step _ _ _ Hstep Hok)) as (H1 & H2 & H3).
    repeat split; try done; try apply H1. auto.
Qed.

Lemma table_stays_in_order_witness :
  NoDup (List.map row_id
           (rows_of (run_all [(PostMarkAttendance (user_id_body (JString (py "bob"))), calm 3);
                              (GetAttendance, calm 4);
                              (DbCall (CallMarkAttendance (py "bob")), calm 4)]
                       started_world))).
Proof.
  apply (table_stays_in_order _ started_world).
  split; constructor.
Defined.

(** ** What the handlers answer *)

Lemma generate_qr_code_raises self user_id e w x :
  fst (QRCodeService.generate_qr_code self user_id e w) = Raised x ->
  x = generation_failed.
Proof.
  rewrite generate_qr_code_runs.
  destruct (encode_fault e); [by intros [= <-]|].
  destruct (safe_join _ _) as [p|]; [|by intros [= <-]].
  destruct (truthy (JString p)); [|by intros [= <-]].
  destruct (save_fault e) as [[y []]|]; simpl; by intros [= <-].
Qed.

Lemma generate_qr_code_returns self user_id e w qr_path w' :
  QRCodeService.generate_qr_code self user_id e w = (Returned qr_path, w') ->
  safe_join (QRCodeService.qr_codes_dir self) (user_id ++ py ".png") = Some qr_path
  /\ w' = written qr_path (PngFile (image_of user_id)) w.
Proof.
  rewrite generate_qr_code_runs.
  destruct (encode_fault e); [discriminate|].
  destruct (safe_join _ _) as [p|]; [|discriminate].
  destruct (truthy (JString p)); [|discriminate].
  destruct (save_fault e) as [[y []]|]; try discriminate.
  by intros [= <- <-].
Qed.

(** On a parsed body nothing but an [AttributeError] can stop the handler
    before the service. *)
Lemma parse_returned_failed data x :
  parse (Returned data) = Failed x -> exn_cls x = AttributeError.
Proof.
  unfold parse. destruct (truthy data); [|discriminate].
  destruct data; simpl; try (by intros [= <-]).
  destruct (dict_get (py "user_id") members) as [| | | |s| |] eqn:Hv;
    unfold validate_user_id; simpl.
  - discriminate.
  - destruct b; simpl; [by intros [= <-]|discriminate].
  - destruct (n =? 0); simpl; [discriminate|by intros [= <-]].
  - destruct f; simpl; try discriminate; by intros [= <-].
  - destruct s as [|c s']; [discriminate|]. simpl.
    destruct (strip (c :: s')); simpl; [discriminate|].
    destruct (len (c :: s') <=? 50); discriminate.
  - destruct items; simpl; [discriminate|by intros [= <-]].
  - destruct members0; simpl; [discriminate|by intros [= <-]].
Qed.

(** [POST /api/generate_qr] on any parsed body never raises and answers
    one of five things: 400 "No data provided" or 400 "Invalid user ID"
    with the world untouched; 200 with the path [safe_join] gave, the image
    written there; 500 "Failed to generate QR code"; 500 "Internal server
    error".  The text of the underlying exception is in none of them. *)
Theorem generate_qr_answers self data e w :
  exists r w',
    generate_qr self (Returned data) e w = (Returned r, w')
    /\ ((r = no_data_response /\ w' = w)
        \/ (r = invalid_response /\ w' = w)
        \/ (exists user_id qr_path,
              parse (Returned data) = UserId user_id
              /\ r = generated_response qr_path
              /\ safe_join (QRCodeService.qr_codes_dir self) (user_id ++ py ".png")
                 = Some qr_path
              /\ w' = written qr_path (PngFile (image_of user_id)) w)
        \/ r = error_response 500 (py "Failed to generate QR code")
        \/ r = internal_error_response).
Proof.
  rewrite generate_qr_runs.
  destruct (parse (Returned data)) as [| |user_id|x] eqn:Hparse.
  - eexists _, _. split; [reflexivity|]. by left.
  - eexists _, _. split; [reflexivity|]. right. by left.
  - destruct (QRCodeService.generate_qr_code self user_id e w) as [[p|x] w1] eqn:Hrun.
    + destruct (generate_qr_code_returns _ _ _ _ _ _ Hrun) as [Hsafe ->].
      eexists _, _. split; [reflexivity|]. right. right. left.
      by exists user_id, p.
    + assert (x = generation_failed) as ->.
      { apply (generate_qr_code_raises self user_id e w). by rewrite Hrun. }
      eexists _, _. split; [reflexivity|]. right. right. right. by left.
  - apply parse_returned_failed in Hparse. unfold answer_qr_error.
    rewrite bool_decide_eq_false_2 by (rewrite Hparse; discriminate).
    eexists _, _. split; [reflexivity|]. by repeat right.
Qed.

Lemma calm_library_db_faults t : library_db_faults (calm t).
Proof. intros x [H|[[k H]|H]]; discriminate H. Qed.

(** What the attendance handlers answer to a [DatabaseError]-free
    environment's failure [x] of a database call. *)
Lemma answer_database_error_cases c e w w1 x :
  library_db_faults e ->
  db_call_exn c e w = Some x ->
  exists r w', answer_database_error x w1 = (Returned r, w')
    /\ (r = error_response 500 (exn_str connect_failed)
        \/ r = error_response 500 (exn_str (own_failure c))
        \/ r = internal_error_response).
Proof.
  intros Hlib Hx. unfold answer_database_error.
  destruct (db_call_raises _ _ _ _ Hx) as [_ [-> | [-> | [Hfault _]]]].
  - eexists _, _. split; [reflexivity|]. by left.
  - destruct c; eexists _, _; (split; [reflexivity|]); right; by left.
  - assert (Hcls : exn_cls x <> DatabaseError).
    { destruct Hfault as [Hfault|(user_id & _ & Hbind)]; [by apply Hlib|].
      rewrite (bind_text_class _ _ Hbind). discriminate. }
    rewrite bool_decide_eq_false_2 by done.
    eexists _, _. split; [reflexivity|]. by repeat right.
Qed.

(** [POST /api/mark_attendance] on any parsed body, when the libraries
    raise only their own exceptions, never raises and answers one of six
    things: the two 400s with the world untouched; 200 with exactly one row
    appended; 500 with "Failed to connect to database" or "Failed to mark
    attendance"; 500 "Internal server error".  The text of a [sqlite3]
    error is in none of them. *)
Theorem mark_attendance_answers data e w :
  library_db_faults e ->
  exists r w',
    mark_attendance (Returned data) e w = (Returned r, w')
    /\ ((r = no_data_response /\ w' = w)
        \/ (r = invalid_response /\ w' = w)
        \/ (exists user_id,
              parse (Returned data) = UserId user_id
              /\ r = marked_response
              /\ rows_of w'
                 = rows_of w
                   ++ [Row (Z.max (sqlite_sequence (w_db w))
                                  (Sqlite.largest_rowid (rows_of w)) + 1)
                           user_id (now e) (now e)])
        \/ r = error_response 500 (py "Failed to connect to database")
        \/ r = error_response 500 (py "Failed to mark attendance")
        \/ r = internal_error_response).
Proof.
  intros Hlib. rewrite mark_attendance_runs.
  destruct (parse (Returned data)) as [| |user_id|x] eqn:Hparse.
  - eexists _, _. split; [reflexivity|]. by left.
  - eexists _, _. split; [reflexivity|]. right. by left.
  - destruct (AttendanceService.mark_attendance user_id e w) as [[[]|x] w1] eqn:Hrun.
    + destruct (mark_attendance_returns _ _ _ _ Hrun) as (rows & Hrows & Hrows1 & _).
      eexists _, _. split; [reflexivity|]. right. right. left.
      exists user_id. repeat split. unfold rows_of. by rewrite Hrows, Hrows1.
    + destruct (answer_database_error_cases (CallMarkAttendance user_id) e w w1 x Hlib)
        as (r & w' & -> & Hr).
      { unfold db_call_exn. by rewrite Hrun. }
      eexists _, _. split; [reflexivity|]. right. right. right.
      destruct Hr as [-> | [-> | ->]]; tauto.
  - apply parse_returned_failed in Hparse. unfold answer_database_error.
    rewrite bool_decide_eq_false_2 by (rewrite Hparse; discriminate).
    eexists _, _. split; [reflexivity|]. by repeat right.
Qed.

Lemma mark_attendance_answers_witness :
  exists r w',
    mark_attendance (user_id_body (JString (py "bob"))) (calm 3) started_world
    = (Returned r, w')
    /\ ((r = no_data_response /\ w' = started_world)
        \/ (r = invalid_response /\ w' = started_world)
        \/ (exists user_id,
              parse (user_id_body (JString (py "bob"))) = UserId user_id
              /\ r = marked_response
              /\ rows_of w'
                 = rows_of started_world
                   ++ [Row (Z.max (sqlite_sequence (w_db started_world))
                                  (Sqlite.largest_rowid (rows_of started_world)) + 1)
                           user_id (now (calm 3)) (now (calm 3))])
        \/ r = error_response 500 (py "Failed to connect to database")
        \/ r = error_response 500 (py "Failed to mark attendance")
        \/ r = internal_error_response).
Proof.
  apply (mark_attendance_answers (JObject [(py "user_id", JString (py "bob"))])
           (calm 3) started_world).
  intros x [H|[[k H]|H]]; discriminate H.
Defined.

(** [GET /api/get_attendance], when the libraries raise only their own
    exceptions, never raises, changes neither the database nor the files,
    and answers 200 with one JSON object per row of the table, newest
    first, or 500 with "Failed to connect to database", "Failed to retrieve
    attendance records" or "Internal server error". *)
Theorem get_attendance_answers e w :
  library_db_faults e ->
  exists r w',
    get_attendance e w = (Returned r, w')
    /\ w_db w' = w_db w /\ w_fs w' = w_fs w
    /\ ((exists records,
           r = Response 200 (JArray (List.map row_to_json records))
           /\ records ≡ₚ rows_of w /\ descending records)
        \/ r = error_response 500 (py "Failed to connect to database")
        \/ r = error_response 500 (py "Failed to retrieve attendance records")
        \/ r = internal_error_response).
Proof.
  intros Hlib. destruct (get_attendance_world e w) as [Hdb Hfs].
  rewrite get_attendance_runs in *.
  destruct (AttendanceService.get_attendance_records e w) as [[records|x] w1] eqn:Hrun.
  - eexists _, _. split; [reflexivity|]. split; [done|]. split; [done|]. left.
    exists records. split; [done|].
    destruct (get_attendance_records_returns _ _ _ _ Hrun) as (rows & Hrows & -> & _).
    unfold rows_of. rewrite Hrows. simpl. split; [apply merge_sort_Permutation|].
    apply StronglySorted_descending, StronglySorted_merge_sort; apply _.
  - destruct (answer_database_error_cases CallGetAttendanceRecords e w w1 x Hlib)
      as (r & w' & Heq & Hr).
    { unfold db_call_exn. by rewrite Hrun. }
    rewrite Heq in *. eexists _, _. split; [reflexivity|].
    split; [done|]. split; [done|]. right.
    destruct Hr as [-> | [-> | ->]]; tauto.
Qed.

Lemma get_attendance_answers_witness :
  exists r w',
    get_attendance (calm 9) started_world = (Returned r, w')
    /\ w_db w' = w_db started_world /\ w_fs w' = w_fs started_world
    /\ ((exists records,
           r = Response 200 (JArray (List.map row_to_json records))
           /\ records ≡ₚ rows_of started_world /\ descending records)
        \/ r = error_response 500 (py "Failed to connect to database")
        \/ r = error_response 500 (py "Failed to retrieve attendance records")
        \/ r = internal_error_response).
Proof.
  apply (get_attendance_answers (calm 9) started_world).
  intros x [H|[[k H]|H]]; discriminate H.
Defined.

(** ** Bodies and identifiers of the wrong shape *)

(** A parsed body that is falsy (null, false, 0, 0.0, "", [] or {}) gets
    400 "No data provided" from both POST handlers and the world is left as
    it was.  A truthy body that is not an object (a number, a string, a
    list, true) has no [get]: both handlers answer 500 "Internal server
    error" and log the one record of the catch-all clause, and nothing else
    changes. *)
Theorem body_not_an_object self data e w :
  (truthy data = false ->
   generate_qr self (Returned data) e w = (Returned no_data_response, w)
   /\ mark_attendance (Returned data) e w = (Returned no_data_response, w))
  /\ (truthy data = true -> not_an_object data ->
      exists detail,
        generate_qr self (Returned data) e w
        = (Returned internal_error_response,
           logged (py "Unexpected error: " ++ detail) w)
        /\ mark_attendance (Returned data) e w
        = (Returned internal_error_response,
           logged (py "Unexpected error: " ++ detail) w)).
Proof.
  rewrite generate_qr_runs, mark_attendance_runs. unfold parse. split.
  - by intros ->.
  - intros -> H. destruct data; try done; by eexists.
Qed.

Lemma body_not_an_object_witness :
  exists detail,
    generate_qr default_service (Returned (JArray [JString (py "bob")])) (calm 0)
      started_world
    = (Returned internal_error_response,
       logged (py "Unexpected error: " ++ detail) started_world)
    /\ mark_attendance (Returned (JArray [JString (py "bob")])) (calm 0) started_world
    = (Returned internal_error_response,
       logged (py "Unexpected error: " ++ detail) started_world).
Proof.
  apply (body_not_an_object default_service (JArray [JString (py "bob")])
           (calm 0) started_world); [reflexivity|exact I].
Defined.

(** When [request.get_json()] itself raises an exception that is neither
    of the application's two, both POST handlers catch it: they answer 500
    "Internal server error" and log the exception's text, which the
    response does not carry. *)
Theorem get_json_raises self x e w :
  exn_cls x <> QRCodeError -> exn_cls x <> DatabaseError ->
  generate_qr self (Raised x) e w
  = (Returned internal_error_response, logged (py "Unexpected error: " ++ exn_str x) w)
  /\ mark_attendance (Raised x) e w
  = (Returned internal_error_response, logged (py "Unexpected error: " ++ exn_str x) w).
Proof.
  intros H1 H2. rewrite generate_qr_runs, mark_attendance_runs. simpl.
  unfold answer_qr_error, answer_database_error.
  by rewrite !bool_decide_eq_false_2.
Qed.

Lemma get_json_raises_witness :
  generate_qr default_service (Raised (Exn OtherException (py "400 Bad Request")))
    (calm 0) started_world
  = (Returned internal_error_response,
     logged (py "Unexpected error: 400 Bad Request") started_world)
  /\ mark_attendance (Raised (Exn OtherException (py "400 Bad Request")))
       (calm 0) started_world
  = (Returned internal_error_response,
     logged (py "Unexpected error: 400 Bad Request") started_world).
Proof.
  apply (get_json_raises default_service (Exn OtherException (py "400 Bad Request"))
           (calm 0) started_world); discriminate.
Defined.

(** A [user_id] that is not a string, in a non-empty object: when it is
    falsy (null or missing, false, 0, 0.0, [] or {}) both POST handlers
    answer 400 "Invalid user ID" and leave the world as it was; when it is
    truthy (a non-zero number, true, a non-empty list or object) the
    validation raises on [strip] and both answer 500 "Internal server
    error", logging one record and changing nothing else. *)
Theorem user_id_not_a_string self members e w :
  members <> [] ->
  not_a_string (dict_get (py "user_id") members) ->
  (truthy (dict_get (py "user_id") members) = false ->
   generate_qr self (Returned (JObject members)) e w = (Returned invalid_response, w)
   /\ mark_attendance (Returned (JObject members)) e w = (Returned invalid_response, w))
  /\ (truthy (dict_get (py "user_id") members) = true ->
      exists detail,
        generate_qr self (Returned (JObject members)) e w
        = (Returned internal_error_response,
           logged (py "Unexpected error: " ++ detail) w)
        /\ mark_attendance (Returned (JObject members)) e w
        = (Returned internal_error_response,
           logged (py "Unexpected error: " ++ detail) w)).
Proof.
  intros Hne Hv. rewrite generate_qr_runs, mark_attendance_runs.
  unfold parse. destruct members as [|m ms]; [done|].
  cbn [truthy data_get].
  destruct (dict_get (py "user_id") (m :: ms)) as [| | | |s| |] eqn:E;
    unfold validate_user_id; try done.
  all: destruct (truthy _) eqn:Ht; cbn [negb];
    (split; [intros; try done|intros; try done; by eexists]).
Qed.

Lemma user_id_not_a_string_witness :
  exists detail,
    generate_qr default_service (user_id_body (JBool true)) (calm 0) started_world
    = (Returned internal_error_response,
       logged (py "Unexpected error: " ++ detail) started_world)
    /\ mark_attendance (user_id_body (JBool true)) (calm 0) started_world
    = (Returned internal_error_response,
       logged (py "Unexpected error: " ++ detail) started_world).
Proof.
  apply (user_id_not_a_string default_service [(py "user_id", JBool true)]
           (calm 0) started_world); [discriminate|exact I|reflexivity].
Defined.

(** ** Logging *)

Lemma db_call_log c e w :
  exists entries,
    w_log (snd (run_db_call c e w)) = w_log w ++ entries
    /\ (fst (run_db_call c e w) = true -> entries = []).
Proof.
  destruct c as [|user_id|]; unfold run_db_call, observe; unfold_program; simpl;
    cases; rewrite <- ?app_assoc; simpl;
    first [ exists []; split; [by rewrite app_nil_r|done]
          | eexists; split; [reflexivity|discriminate] ].
Qed.

Lemma generate_qr_code_log self user_id e w :
  exists entries,
    w_log (snd (QRCodeService.generate_qr_code self user_id e w)) = w_log w ++ entries
    /\ (returned (fst (QRCodeService.generate_qr_code self user_id e w)) = true ->
        entries = []).
Proof.
  rewrite generate_qr_code_runs.
  destruct (encode_fault e); [by eexists|].
  destruct (safe_join _ _) as [p|]; [|by eexists].
  destruct (truthy (JString p)); [|by eexists].
  destruct (save_fault e) as [[y []]|]; simpl; try (by eexists).
  exists []. by rewrite app_nil_r.
Qed.

Lemma answer_logs_500 (answer : exn -> world -> outcome response * world) x w w1 entries :
  (answer = answer_database_error \/ answer = answer_qr_error) ->
  w_log w1 = w_log w ++ entries ->
  logs_iff_500 w (answer x w1).
Proof.
  intros Hans Hlog.
  assert (H : exists r msg, answer x w1 = (Returned r, logged msg w1) /\ status r = 500).
  { destruct Hans as [-> | ->]; unfold answer_database_error, answer_qr_error;
      destruct (bool_decide _); by eexists _, _. }
  destruct H as (r & msg & -> & Hr).
  exists r, (entries ++ [msg]). simpl. rewrite Hlog, <- app_assoc.
  repeat split; auto. intros _ E. by apply app_eq_nil in E as [_ E].
Qed.

Lemma quiet_answer w r w1 :
  w_log w1 = w_log w -> status r = 200 \/ status r = 400 ->
  logs_iff_500 w (Returned r, w1).
Proof.
  intros Hlog Hr. exists r, []. simpl. rewrite Hlog, app_nil_r.
  repeat split; try done; [|tauto]. intros E. destruct Hr as [Hr|Hr]; rewrite Hr in E; done.
Qed.

(** No handler ever raises, and each answers with status 200, 400 or 500.
    A handler writes to the log exactly when it answers 500: every 500 has
    at least one log record telling the cause, and a 200 or a 400 leaves
    the log as it was.  Log records are only ever appended. *)
Theorem handlers_log_every_500 self request e w :
  logs_iff_500 w (generate_qr self request e w)
  /\ logs_iff_500 w (mark_attendance request e w)
  /\ logs_iff_500 w (get_attendance e w).
Proof.
  split; [|split].
  - rewrite generate_qr_runs.
    destruct (parse request) as [| |user_id|x].
    + apply quiet_answer; [done|by right].
    + apply quiet_answer; [done|by right].
    + destruct (generate_qr_code_log self user_id e w) as (entries & Hlog & Hok).
      destruct (QRCodeService.generate_qr_code self user_id e w) as [[p|x] w1];
        simpl in *.
      * apply quiet_answer; [|by left]. by rewrite Hlog, Hok, app_nil_r.
      * eapply answer_logs_500; [by right|exact Hlog].
    + eapply (answer_logs_500 _ x w w []); [by right|by rewrite app_nil_r].
  - rewrite mark_attendance_runs.
    destruct (parse request) as [| |user_id|x].
    + apply quiet_answer; [done|by right].
    + apply quiet_answer; [done|by right].
    + destruct (db_call_log (CallMarkAttendance user_id) e w) as (entries & Hlog & Hok).
      unfold run_db_call, observe in *. simpl in *.
      destruct (AttendanceService.mark_attendance user_id e w) as [[[]|x] w1];
        simpl in *.
      * apply quiet_answer; [|by left]. by rewrite Hlog, Hok, app_nil_r.
      * eapply answer_logs_500; [by left|exact Hlog].
    + eapply (answer_logs_500 _ x w w []); [by left|by rewrite app_nil_r].
  - rewrite get_attendance_runs.
    destruct (db_call_log CallGetAttendanceRecords e w) as (entries & Hlog & Hok).
    unfold run_db_call, observe in *. simpl in *.
    destruct (AttendanceService.get_attendance_records e w) as [[records|x] w1];
      simpl in *.
    + apply quiet_answer; [|by left]. by rewrite Hlog, Hok, app_nil_r.
    + eapply answer_logs_500; [by left|exact Hlog].
Qed.

(** ** Requests that reach the services *)

Lemma validate_user_id_valid s :
  valid_identifier (Some s) -> validate_user_id (JString s) = Returned true.
Proof.
  intros [Hstrip Hlen]. rewrite validate_user_id_string.
  assert (forallb isspace s = false) as ->.
  { apply not_true_is_false. intros H. by apply strip_nil_iff in H. }
  apply Z.leb_le in Hlen. by rewrite Hlen.
Qed.

Lemma parse_valid members s :
  dict_get (py "user_id") members = JString s ->
  valid_identifier (Some s) ->
  parse (Returned (JObject members)) = UserId s.
Proof.
  intros Hget Hvalid. unfold parse.
  destruct members as [|m ms]; [discriminate|].
  cbn [truthy data_get]. rewrite Hget, (validate_user_id_valid _ Hvalid). done.
Qed.

(** A valid [user_id] that can be stored as text (no surrogate code
    point), posted to [/api/mark_attendance] with nothing failing and a
    table that accepts an insert, is answered 200 "Attendance marked
    successfully"; the row committed carries the string exactly as it was
    sent (validation trims only to test, so surrounding whitespace is
    stored), the next id and the time of the insert.  No file and no log
    record is written. *)
Theorem mark_attendance_stores_user_id members user_id t w :
  dict_get (py "user_id") members = JString user_id ->
  valid_identifier (Some user_id) ->
  Sqlite.utf8_encodable user_id = true ->
  accepts_insert w ->
  exists w',
    mark_attendance (Returned (JObject members)) (calm t) w
    = (Returned marked_response, w')
    /\ rows_of w'
       = rows_of w
         ++ [Row (Z.max (sqlite_sequence (w_db w)) (Sqlite.largest_rowid (rows_of w)) + 1)
                 user_id t t]
    /\ w_fs w' = w_fs w /\ w_log w' = w_log w.
Proof.
  intros Hget Hvalid Hutf Hroom.
  rewrite mark_attendance_runs, (parse_valid _ _ Hget Hvalid).
  destruct (mark_attendance_calm user_id t w Hutf Hroom) as [w' Hrun].
  pose proof (mark_attendance_keeps_fs user_id (calm t) w) as Hfs.
  destruct (db_call_log (CallMarkAttendance user_id) (calm t) w) as (entries & Hlog & Hok).
  unfold run_db_call, observe in Hlog, Hok. simpl in Hlog, Hok.
  rewrite Hrun in *. simpl in *.
  destruct (mark_attendance_returns _ _ _ _ Hrun) as (rows & Hrows & Hrows' & _).
  exists w'. repeat split; try done.
  - unfold rows_of. by rewrite Hrows, Hrows'.
  - by rewrite Hlog, Hok, app_nil_r.
Qed.

Lemma mark_attendance_stores_user_id_witness :
  exists w',
    mark_attendance (user_id_body (JString (py " bob "))) (calm 7) started_world
    = (Returned marked_response, w')
    /\ rows_of w' = rows_of started_world ++ [Row (Z.max 0 0 + 1) (py " bob ") 7 7]
    /\ w_fs w' = w_fs started_world /\ w_log w' = w_log started_world.
Proof.
  apply (mark_attendance_stores_user_id [(py "user_id", JString (py " bob "))]
           (py " bob ") 7 started_world).
  - reflexivity.
  - split; [discriminate|]. vm_compute. discriminate.
  - reflexivity.
  - exists []. split; reflexivity.
Defined.

Lemma mark_attendance_unencodable user_id e w :
  Sqlite.utf8_encodable user_id = false ->
  exists x w',
    AttendanceService.mark_attendance user_id e w = (Raised x, w')
    /\ w_db w' = w_db w.
Proof.
  intros Hutf.
  destruct (Sqlite.bind_text user_id) as [y|] eqn:Hbind;
    [|apply bind_text_none in Hbind; congruence].
  unfold_program. simpl. cases; simplify_eq/=; by eexists _, _.
Qed.

Lemma mark_attendance_unencodable_calm user_id t w x :
  Sqlite.bind_text user_id = Some x ->
  is_Some (attendance (w_db w)) ->
  AttendanceService.mark_attendance user_id (calm t) w
  = (Raised x,
     World (w_db w) None
       (w_sql w ++ [SqlConnect; SqlExecute (InsertAttendance user_id); SqlRollback])
       (w_fs w) (w_log w)).
Proof.
  intros Hbind [rows Hrows].
  assert (Hcls : is_sqlite3_error x = false).
  { unfold is_sqlite3_error. apply bool_decide_eq_false.
    rewrite (bind_text_class _ _ Hbind). discriminate. }
  unfold_program. cbn [calm connect_fault execute_fault commit_fault now fst snd
                       w_db w_txn w_sql w_fs w_log Sqlite.opens_transaction].
  rewrite Hrows, Hbind. cbn [w_db w_txn w_sql w_fs w_log]. rewrite Hcls.
  by rewrite <- !app_assoc.
Qed.

(** A [user_id] that holds a surrogate code point, such as the one the
    JSON escape for U+D800 alone yields, passes validation when it is
    non-blank and at most 50 long, but cannot be bound as SQL text:
    [/api/mark_attendance] answers it with status 500 in every environment
    and the database and the files stay as they were.  When nothing else
    fails the answer is "Internal server error" and the log receives the
    text of the [UnicodeEncodeError]. *)
Theorem mark_attendance_surrogate_is_500 members user_id w :
  dict_get (py "user_id") members = JString user_id ->
  valid_identifier (Some user_id) ->
  Sqlite.utf8_encodable user_id = false ->
  (forall e, exists r w',
     mark_attendance (Returned (JObject members)) e w = (Returned r, w')
     /\ status r = 500 /\ w_db w' = w_db w /\ w_fs w' = w_fs w)
  /\ (forall t, is_Some (attendance (w_db w)) ->
      exists x w',
        Sqlite.bind_text user_id = Some x
        /\ mark_attendance (Returned (JObject members)) (calm t) w
           = (Returned internal_error_response,
              logged (py "Unexpected error: " ++ exn_str x) w')
        /\ w_log w' = w_log w).
Proof.
  intros Hget Hvalid Hutf. split.
  - intros e. rewrite mark_attendance_runs, (parse_valid _ _ Hget Hvalid).
    destruct (mark_attendance_unencodable user_id e w Hutf) as (x & w1 & Hrun & Hdb).
    pose proof (mark_attendance_keeps_fs user_id e w) as Hfs.
    rewrite Hrun in *. simpl in *. unfold answer_database_error.
    destruct (bool_decide _); eexists _, _; (split; [reflexivity|]); by simpl.
  - intros t Htable. rewrite mark_attendance_runs, (parse_valid _ _ Hget Hvalid).
    destruct (Sqlite.bind_text user_id) as [x|] eqn:Hbind;
      [|apply bind_text_none in Hbind; congruence].
    rewrite (mark_attendance_unencodable_calm _ _ _ _ Hbind Htable).
    unfold answer_database_error.
    rewrite bool_decide_eq_false_2
      by (rewrite (bind_text_class _ _ Hbind); discriminate).
    by eexists _, _.
Qed.

Lemma mark_attendance_surrogate_is_500_witness :
  exists r w',
    mark_attendance (user_id_body (JString [55296%N])) (calm 2) started_world
    = (Returned r, w')
    /\ status r = 500 /\ w_db w' = w_db started_world /\ w_fs w' = w_fs started_world.
Proof.
  apply (mark_attendance_surrogate_is_500 [(py "user_id", JString [55296%N])]
           [55296%N] started_world).
  - reflexivity.
  - split; [discriminate|]. vm_compute. discriminate.
  - reflexivity.
Defined.

(** A [user_id] that passes validation but whose file name escapes the
    output directory (validation does not look at slashes or dots) is
    answered 500 "Failed to generate QR code" in every environment; no
    file is written and the database is not touched. *)
Theorem generate_qr_escape_is_500 self members user_id e w :
  dict_get (py "user_id") members = JString user_id ->
  valid_identifier (Some user_id) ->
  escapes (user_id ++ py ".png") = true ->
  exists w',
    generate_qr self (Returned (JObject members)) e w
    = (Returned (error_response 500 (py "Failed to generate QR code")), w')
    /\ w_fs w' = w_fs w /\ w_db w' = w_db w.
Proof.
  intros Hget Hvalid Hout.
  rewrite generate_qr_runs, (parse_valid _ _ Hget Hvalid), generate_qr_code_runs.
  rewrite (safe_join_refuses _ _ Hout).
  destruct (encode_fault e); eexists; by repeat split.
Qed.

Lemma generate_qr_escape_is_500_witness :
  exists w',
    generate_qr default_service (user_id_body (JString (py "../evil"))) (calm 0)
      started_world
    = (Returned (error_response 500 (py "Failed to generate QR code")), w')
    /\ w_fs w' = w_fs started_world /\ w_db w' = w_db started_world.
Proof.
  apply (generate_qr_escape_is_500 default_service
           [(py "user_id", JString (py "../evil"))] (py "../evil") (calm 0)
           started_world).
  - reflexivity.
  - split; [discriminate|]. vm_compute. discriminate.
  - reflexivity.
Defined.

(** The two halves of the application do not meet: [generate_qr] makes no
    call on the database and leaves its file as it was, and the two
    attendance handlers leave every file of the QR directory as it was, in
    every environment and for every request. *)
Theorem handlers_keep_apart self request e w :
  (w_db (snd (generate_qr self request e w)) = w_db w
   /\ w_sql (snd (generate_qr self request e w)) = w_sql w
   /\ w_txn (snd (generate_qr self request e w)) = w_txn w)
  /\ w_fs (snd (mark_attendance request e w)) = w_fs w
  /\ w_fs (snd (get_attendance e w)) = w_fs w.
Proof.
  split; [|split].
  - rewrite generate_qr_runs.
    assert (Hans : forall x w1, w_db (snd (answer_qr_error x w1)) = w_db w1
                   /\ w_sql (snd (answer_qr_error x w1)) = w_sql w1
                   /\ w_txn (snd (answer_qr_error x w1)) = w_txn w1).
    { intros x w1. unfold answer_qr_error. by destruct (bool_decide _). }
    destruct (parse request) as [| |user_id|x]; try done; try apply Hans.
    pose proof (generate_qr_code_keeps_db self user_id e w) as Hdb.
    assert (Hsql : w_sql (snd (QRCodeService.generate_qr_code self user_id e w)) = w_sql w
                   /\ w_txn (snd (QRCodeService.generate_qr_code self user_id e w)) = w_txn w).
    { rewrite generate_qr_code_runs.
      destruct (encode_fault e); [done|].
      destruct (safe_join _ _) as [p|]; [|done].
      destruct (truthy (JString p)); [|done].
      by destruct (save_fault e) as [[y []]|]. }
    destruct (QRCodeService.generate_qr_code self user_id e w) as [[p|x] w1];
      simpl in *; [tauto|].
    destruct (Hans x w1) as (-> & -> & ->). tauto.
  - apply mark_attendance_world.
  - apply get_attendance_world.
Qed.

(** ** Validation of strings *)

Lemma not_all_space s :
  forallb isspace s = false <-> exists c, c ∈ s /\ isspace c = false.
Proof.
  induction s as [|a s IH]; simpl.
  - split; [discriminate|]. intros (c & Hc & _). by apply elem_of_nil in Hc.
  - destruct (isspace a) eqn:Ea; simpl.
    + rewrite IH. split; intros (c & Hc & Hs).
      * exists c. split; [by right|done].
      * apply elem_of_cons in Hc as [->|Hc]; [congruence|by exists c].
    + split; [|done]. intros _. exists a. split; [by left|done].
Qed.

(** On a string [validate_user_id] never raises, and it returns true
    exactly when the string holds at most 50 code points of which at least
    one is not whitespace: whitespace around or inside an identifier does
    not make it invalid, and it counts towards the 50. *)
Theorem validate_user_id_non_blank s :
  exists b,
    validate_user_id (JString s) = Returned b
    /\ (b = true <->
        (exists c, c ∈ s /\ isspace c = false) /\ (length s <= 50)%nat).
Proof.
  rewrite validate_user_id_string. eexists. split; [reflexivity|].
  rewrite andb_true_iff, negb_true_iff, not_all_space, Z.leb_le.
  unfold len. split; intros [H1 H2]; (split; [done|lia]).
Qed.

Lemma validate_user_id_non_blank_witness :
  exists b,
    validate_user_id (JString (py " a b ")) = Returned b
    /\ (b = true <->
        (exists c, c ∈ py " a b " /\ isspace c = false)
        /\ (length (py " a b ") <= 50)%nat).
Proof. exact (validate_user_id_non_blank (py " a b ")). Defined.

Lemma validate_user_id_falsy v :
  truthy v = false -> validate_user_id v = Returned false.
Proof. intros H. unfold validate_user_id. by rewrite H. Qed.

(** On every candidate that is a string or falsy, [validate_user_id]
    returns, and returns true exactly for the strings whose trimmed form is
    non-empty and whose untrimmed length is at most 50.  A JSON object
    whose [user_id] is any other such candidate is answered by both POST
    handlers with status 400 and a body [{"error": message}], and the world
    is left as it was. *)
Theorem validate_user_id_rule v :
  string_or_falsy v ->
  (exists b, validate_user_id v = Returned b /\ (b = true <-> valid_candidate v))
  /\ forall self members e w,
       dict_get (py "user_id") members = v ->
       ~ valid_candidate v ->
       exists message,
         generate_qr self (Returned (JObject members)) e w
           = (Returned (error_response 400 message), w)
         /\ mark_attendance (Returned (JObject members)) e w
           = (Returned (error_response 400 message), w).
Proof.
  intros Hv.
  assert (H : exists b, validate_user_id v = Returned b
                        /\ (b = true <-> valid_candidate v)).
  { destruct Hv as [[s ->]|Hf].
    - destruct (validate_user_id_candidate (Some s)) as (b & Hb & Hiff).
      exists b. split; [exact Hb|]. rewrite Hiff. unfold valid_candidate.
      split; [intros H; by exists s|by intros (s' & [= <-] & H)].
    - exists false. split; [by apply validate_user_id_falsy|].
      split; [discriminate|]. intros (s & -> & [Hs _]). destruct s; [done|discriminate]. }
  split; [exact H|].
  intros self members e w Hget Hinv. destruct H as (b & Hb & Hiff).
  assert (b = false) as ->.
  { destruct b; [|done]. exfalso. apply Hinv. by apply Hiff. }
  rewrite <- Hget in Hb.
  destruct (post_rejects_unvalidated self members e w Hb) as [H1 H2].
  rewrite H1, H2. destruct members; eexists; split; reflexivity.
Qed.

Lemma validate_user_id_rule_witness :
  exists message,
    generate_qr default_service (user_id_body (JString (py "   "))) (calm 0)
      started_world
      = (Returned (error_response 400 message), started_world)
    /\ mark_attendance (user_id_body (JString (py "   "))) (calm 0) started_world
      = (Returned (error_response 400 message), started_world).
Proof.
  destruct (validate_user_id_rule (JString (py "   "))) as [_ H].
  { left. by eexists. }
  apply (H default_service [(py "user_id", JString (py "   "))]).
  - reflexivity.
  - intros (s & [= <-] & [Hs _]). apply Hs. reflexivity.
Defined.
